(** * chatbot.py: the market-data query functions and the chat loop

    A shallow embedding of [src/chatbot.py].  The six query functions
    ([get_token_metadata], [get_wallet_tokens], [get_token_details],
    [get_wallet_nfts], [get_token_pairs], [get_trending_tokens]) each build
    one HTTP GET request, send it through [requests.get], and render the
    decoded JSON body into text.  They are written here in a small monad
    that records the requests sent and carries Python exceptions, so that
    what is caught by [except requests.exceptions.RequestException] and what
    is not can be read off the result. *)

(** The rest of the file is embedded as well: [deploy_multi_token], the
    tools that [initialize_agent] builds from the input schemas and the
    functions, and the drivers [choose_mode], [run_autonomous_mode] and
    [main], run over a script of what the keyboard and the clock
    deliver. *)

From Stdlib Require Import String Ascii List ZArith Lia Bool.
From Stdlib Require Import Floats.PrimFloat.
From Stdlib Require DecimalString.
Import ListNotations.

Local Open Scope list_scope.
Local Open Scope string_scope.
#[local] Set Warnings "-register-all".

(** ** Python values *)

(** What [json.loads] produces: [None], [bool], [int], [float], [str],
    [list] and [dict] with string keys.  A dict keeps its keys in
    insertion order; it is an association list read by its first
    binding. *)
Inductive value : Type :=
| VNone
| VBool (b : bool)
| VInt (z : Z)
| VFloat (f : float)
| VStr (s : string)
| VList (l : list value)
| VDict (d : list (string * value)).

(** A subscript: [obj['key']] or [obj[0]]. *)
Inductive index : Type :=
| IStr (k : string)
| IInt (i : Z).

(** The exceptions the query functions can meet.  [RequestException]
    stands for [requests.exceptions.RequestException] and all of its
    subclasses (connection errors, timeouts, [HTTPError], and the
    [JSONDecodeError] of [Response.json]); it carries [str(e)]. *)
Inductive exn : Type :=
| KeyError (k : index)
| IndexError
| TypeError
| AttributeError
| ValueError (msg : string)
| ValidationError
| EOFError
| RequestException (msg : string).

(** The outcome of evaluating an expression: a value or a raised
    exception. *)
Inductive res (A : Type) : Type :=
| Ok (a : A)
| Raise (e : exn).
Arguments Ok {A} a.
Arguments Raise {A} e.

Definition res_bind {A B} (m : res A) (k : A -> res B) : res B :=
  match m with
  | Ok a => k a
  | Raise e => Raise e
  end.

Declare Scope res_scope.
Delimit Scope res_scope with res.
Notation "x <- m ;; k" := (res_bind m (fun x => k))
  (at level 61, m at next level, right associativity) : res_scope.

Fixpoint res_map {A B} (f : A -> res B) (l : list A) : res (list B) :=
  match l with
  | [] => Ok []
  | a :: l' =>
      (b <- f a ;;
       bs <- res_map f l' ;;
       Ok (b :: bs))%res
  end.

(** ** Built-in operations on values *)

Fixpoint dict_lookup (k : string) (d : list (string * value)) : option value :=
  match d with
  | [] => None
  | (k', v) :: d' => if String.eqb k k' then Some v else dict_lookup k d'
  end.

(** [bool(v)]: the truth value tested by [if v], [v or w] and
    [x if v else y]. *)
Definition truthy (v : value) : bool :=
  match v with
  | VNone => false
  | VBool b => b
  | VInt z => negb (z =? 0)%Z
  | VFloat f => negb (PrimFloat.eqb f PrimFloat.zero)
  | VStr s => negb (String.eqb s "")
  | VList l => match l with [] => false | _ => true end
  | VDict d => match d with [] => false | _ => true end
  end.

(** [v or w]. *)
Definition py_or (v w : value) : value := if truthy v then v else w.

(** [seq[i]] on a sequence of length [length l], with Python's negative
    indices. *)
Definition seq_index {A} (l : list A) (i : Z) : res A :=
  let n := Z.of_nat (length l) in
  let j := (if i <? 0 then i + n else i)%Z in
  if ((0 <=? j) && (j <? n))%Z
  then match nth_error l (Z.to_nat j) with
       | Some a => Ok a
       | None => Raise IndexError
       end
  else Raise IndexError.

(** [obj[i]]. *)
Definition getitem (obj : value) (i : index) : res value :=
  match obj, i with
  | VDict d, IStr k =>
      match dict_lookup k d with
      | Some v => Ok v
      | None => Raise (KeyError i)
      end
  | VDict _, IInt _ => Raise (KeyError i)
  | VList l, IInt n => seq_index l n
  | VList _, IStr _ => Raise TypeError
  | VStr s, IInt n =>
      (c <- seq_index (list_ascii_of_string s) n ;; Ok (VStr (String c "")))%res
  | VStr _, IStr _ => Raise TypeError
  | _, _ => Raise TypeError
  end.

(** [obj.get(k, default)]: only a dict has the method. *)
Definition get_default (obj : value) (k : string) (default : value) : res value :=
  match obj with
  | VDict d =>
      match dict_lookup k d with
      | Some v => Ok v
      | None => Ok default
      end
  | _ => Raise AttributeError
  end.

(** [obj.get(k)]. *)
Definition get (obj : value) (k : string) : res value :=
  get_default obj k VNone.

(** [for x in obj]: the elements of a list, the keys of a dict, the
    characters of a string. *)
Definition iterate (obj : value) : res (list value) :=
  match obj with
  | VList l => Ok l
  | VDict d => Ok (map (fun kv => VStr (fst kv)) d)
  | VStr s => Ok (map (fun c => VStr (String c "")) (list_ascii_of_string s))
  | _ => Raise TypeError
  end.

(** [sep.join(l)]. *)
Definition join (sep : string) (l : list string) : string :=
  String.concat sep l.

Definition str_of_Z (z : Z) : string :=
  DecimalString.NilZero.string_of_int (Z.to_int z).

(** The newline character of the reports. *)
Definition nl : string := String (ascii_of_nat 10) "".

(** ** The HTTP collaborator *)

(** A value of the [params] dict of a request. *)
Inductive param : Type :=
| PStr (s : string)
| PInt (z : Z).

(** The arguments of one [requests.get(url, headers=..., params=...)].
    A header whose value is [None] is written [None] here. *)
Record request : Type := {
  url : string;
  headers : list (string * option string);
  params : list (string * param)
}.

(** What [Response.json()] finds in the body: a decoded value, or a body
    that is not JSON, with the message of the decoding error. *)
Inductive decoded : Type :=
| Decoded (v : value)
| Undecodable (msg : string).

Record response : Type := {
  status_code : Z;
  reason : string;
  response_url : string;
  text : string;
  body : decoded
}.

(** What the upstream does with a request: the transport fails (no
    connection, timeout, invalid URL, ...) with the text of the raised
    [RequestException], or a response comes back. *)
Inductive http_outcome : Type :=
| Failed (msg : string)
| Responded (r : response).

(** Everything the query functions read from outside: the module-level
    [MORALIS_API_KEY = os.environ.get("MORALIS_API_KEY")], the wallet's
    network id read by [Wallet.network_id], and the upstream API.  The
    functions read [network_id] on the class [Wallet] imported from
    [cdp], not on the agent's wallet: what that attribute is in the
    running program is said by [running] below. *)
Record world : Type := {
  MORALIS_API_KEY : option string;
  Wallet_network_id : string;
  upstream : request -> http_outcome
}.

(** ** The monad of the query functions *)

(** A computation takes the requests sent so far and gives its outcome
    with the requests sent after it. *)
Definition M (A : Type) : Type := list request -> res A * list request.

Definition ret {A} (a : A) : M A := fun sent => (Ok a, sent).

Definition bind {A B} (m : M A) (k : A -> M B) : M B :=
  fun sent =>
    match m sent with
    | (Ok a, sent') => k a sent'
    | (Raise e, sent') => (Raise e, sent')
    end.

Definition lift {A} (r : res A) : M A := fun sent => (r, sent).

Declare Scope py_scope.
Delimit Scope py_scope with py.
Notation "x <- m ;; k" := (bind m (fun x => k))
  (at level 61, m at next level, right associativity) : py_scope.

(** [try: body / except requests.exceptions.RequestException as e:
    handler(str(e))].  Any other exception passes through. *)
Definition try_except_RequestException {A} (body : M A) (handler : string -> M A)
  : M A :=
  fun sent =>
    match body sent with
    | (Raise (RequestException msg), sent') => handler msg sent'
    | other => other
    end.

(** Running a call from a fresh log: its outcome and the requests it
    sent. *)
Definition run {A} (m : M A) : res A * list request := m [].
Definition outcome {A} (m : M A) : res A := fst (run m).
Definition sent_requests {A} (m : M A) : list request := snd (run m).

(** [requests.get(url, headers=headers, params=params)]. *)
Definition requests_get (w : world) (url : string)
    (headers : list (string * option string)) (params : list (string * param))
  : M response :=
  fun sent =>
    let rq := {| url := url; headers := headers; params := params |} in
    (match upstream w rq with
     | Failed msg => Raise (RequestException msg)
     | Responded r => Ok r
     end, (sent ++ [rq])%list).

(** [Response.raise_for_status()] of the requests library: an [HTTPError]
    for a 4xx or 5xx status, nothing otherwise. *)
Definition raise_for_status (r : response) : res unit :=
  if ((400 <=? status_code r) && (status_code r <? 500))%Z then
    Raise (RequestException
             (str_of_Z (status_code r) ++ " Client Error: " ++ reason r
                ++ " for url: " ++ response_url r))
  else if ((500 <=? status_code r) && (status_code r <? 600))%Z then
    Raise (RequestException
             (str_of_Z (status_code r) ++ " Server Error: " ++ reason r
                ++ " for url: " ++ response_url r))
  else Ok tt.

(** [Response.json()]: the decoding error of the requests library is a
    [RequestException]. *)
Definition response_json (r : response) : res value :=
  match body r with
  | Decoded v => Ok v
  | Undecodable msg => Raise (RequestException msg)
  end.

(** [not MORALIS_API_KEY]: the variable is unset or empty. *)
Definition api_key_missing (w : world) : bool :=
  match MORALIS_API_KEY w with
  | None => true
  | Some k => String.eqb k ""
  end.

(** [Wallet.network_id in ["base", "base-mainnet"]]. *)
Definition is_mainnet (w : world) : bool :=
  existsb (String.eqb (Wallet_network_id w)) ["base"; "base-mainnet"].

(** ** run_chat_mode *)

(** [str.lower()] on the letters A to Z; every other byte is kept (no
    character outside ASCII lowers to one of the letters of "exit"). *)
Definition lower_ascii (c : ascii) : ascii :=
  let n := nat_of_ascii c in
  if ((65 <=? n) && (n <=? 90))%nat then ascii_of_nat (n + 32) else c.

Fixpoint lower (s : string) : string :=
  match s with
  | EmptyString => EmptyString
  | String c s' => String (lower_ascii c) (lower s')
  end.

(** One chunk of [agent_executor.stream(...)]: the content of the first
    message under its ["agent"] key and under its ["tools"] key, for the
    keys it has. *)
Record chunk : Type := {
  agent : option string;
  tools : option string
}.

(** What [input("\nUser: ")] meets: a typed line, an interrupt
    ([KeyboardInterrupt]) or the end of the input ([EOFError]). *)
Inductive keyboard : Type :=
| Typed (line : string)
| CtrlC
| CtrlD.

(** What the loop does, in order: text printed, the prompt of [input],
    and a query streamed to the decision loop. *)
Inductive effect : Type :=
| Print (s : string)
| Prompt (s : string)
| Stream (query : string).

(** How a run over a finite script ends: the function returns, the
    process exits through [sys.exit], an exception leaves the function,
    or the script is used up and [input] waits. *)
Inductive ending : Type :=
| Returned
| SysExit (code : Z)
| Uncaught (e : exn)
| Waiting.

(** The body of [for chunk in agent_executor.stream(...)]. *)
Definition print_chunk (c : chunk) : list effect :=
  match agent c with
  | Some content => [Print content; Print "-------------------"]
  | None =>
      match tools c with
      | Some content => [Print content; Print "-------------------"]
      | None => [Print "-------------------"]
      end
  end.

Section ChatMode.

(** The decision loop is the collaborator's: from its state and the
    user's message it yields chunks and its next state. *)
Variable Agent : Type.
Variable stream : Agent -> string -> list chunk * Agent.

(** The [while True] loop of [run_chat_mode], run over the script of what
    the keyboard delivers at each [input]. *)
Fixpoint chat_loop (agent_executor : Agent) (keys : list keyboard)
  : list effect * ending :=
  match keys with
  | [] => ([Prompt (nl ++ "User: ")], Waiting)
  | CtrlC :: _ => ([Prompt (nl ++ "User: "); Print "Goodbye Agent!"], SysExit 0)
  | CtrlD :: _ => ([Prompt (nl ++ "User: ")], Uncaught EOFError)
  | Typed user_input :: keys' =>
      if String.eqb (lower user_input) "exit" then
        ([Prompt (nl ++ "User: ")], Returned)
      else
        let '(chunks, agent_executor') := stream agent_executor user_input in
        let '(log, e) := chat_loop agent_executor' keys' in
        ((Prompt (nl ++ "User: ") :: Stream user_input
            :: flat_map print_chunk chunks) ++ log, e)%list
  end.

Definition run_chat_mode (agent_executor : Agent) (keys : list keyboard)
  : list effect * ending :=
  let '(log, e) := chat_loop agent_executor keys in
  (Print "Starting chat mode... Type 'exit' to end." :: log, e).

End ChatMode.

(** The queries a log shows streamed to the decision loop. *)
Fixpoint queries (log : list effect) : list string :=
  match log with
  | [] => []
  | Stream q :: log' => q :: queries log'
  | _ :: log' => queries log'
  end.

(** ** The six query functions together *)

(** A call of one of the query functions with its arguments. *)
Inductive query : Type :=
| TokenMetadata (token_address : string)
| WalletTokens (token_address : string)
| TokenDetails (token_address : string)
| WalletNfts (token_address : string)
| TokenPairs (token_address : string)
| TrendingTokens (security_score min_market_cap : option Z).

(** ** Vocabulary of the statements *)

(** What each function is fetching, as its error text names it. *)
Definition subject (q : query) : string :=
  match q with
  | TokenMetadata _ => "token metadata"
  | WalletTokens _ => "wallet tokens"
  | TokenDetails _ => "token details"
  | WalletNfts _ => "wallet NFTs"
  | TokenPairs _ => "token pairs"
  | TrendingTokens _ _ => "trending tokens"
  end.

Definition is_trending (q : query) : bool :=
  match q with
  | TrendingTokens _ _ => true
  | _ => false
  end.

Definition is_metadata (q : query) : bool :=
  match q with
  | TokenMetadata _ => true
  | _ => false
  end.

Fixpoint param_lookup (k : string) (ps : list (string * param)) : option param :=
  match ps with
  | [] => None
  | (k', v) :: ps' => if String.eqb k k' then Some v else param_lookup k ps'
  end.

(** The [chain] query parameter of a request. *)
Definition chain_of (rq : request) : option param :=
  param_lookup "chain" (params rq).



(** The worked examples hold no float and no string inside a list or a
    dict, so their text does not depend on the two [repr]s of the
    interpreter; this stands in for both. *)
Definition no_repr {A : Type} (_ : A) : string := "".


(** The pair of the trading-pairs example. *)
Definition weth_usdc_pair : value :=
  VDict [("pair_label", VStr "WETH/USDC");
         ("usd_price", VStr "3000.5");
         ("usd_price_24hr_percent_change", VStr "-1.2");
         ("liquidity_usd", VStr "1000000");
         ("exchange_address", VStr "0xEXCHANGE");
         ("pair", VList [VDict [("token_name", VStr "Wrapped Ether");
                                ("token_symbol", VStr "WETH")];
                         VDict [("token_name", VStr "USD Coin");
                                ("token_symbol", VStr "USDC")]])].

(** A wallet token whose price is exactly zero. *)
Definition zero_price_token : value :=
  VDict [("name", VStr "Dust"); ("symbol", VStr "DUST");
         ("balance_formatted", VStr "12"); ("token_address", VStr "0xD057");
         ("verified_contract", VBool false); ("usd_price", VInt 0)].

(** A decision loop that yields one agent chunk echoing the message. *)
Definition echo_stream (a : unit) (message : string) : list chunk * unit :=
  ([{| agent := Some message; tools := None |}], a).

(** A computation that sends nothing. *)
Definition silent {A} (m : M A) : Prop := forall sent, snd (m sent) = sent.

(** A world whose upstream answers every request with status 200 and the
    given decoded body. *)
Definition answering (key : option string) (network_id : string)
    (reason url text : string) (v : value) : world :=
  {| MORALIS_API_KEY := key;
     Wallet_network_id := network_id;
     upstream := fun _ =>
       Responded {| status_code := 200; reason := reason; response_url := url;
                    text := text; body := Decoded v |} |}.

(** ** choose_mode *)

(** [str.strip()]: the characters Python counts as whitespace, in their
    UTF-8 bytes.  In ASCII these are 9 to 13 and 28 to 32; beyond ASCII,
    U+0085, U+00A0, U+1680, U+2000 to U+200A, U+2028, U+2029, U+202F,
    U+205F and U+3000. *)
Definition is_ascii_space (c : ascii) : bool :=
  let n := nat_of_ascii c in
  (((9 <=? n) && (n <=? 13)) || ((28 <=? n) && (n <=? 32)))%nat.

Definition is_space_2 (c1 c2 : ascii) : bool :=
  let a := nat_of_ascii c1 in
  let b := nat_of_ascii c2 in
  ((a =? 194) && ((b =? 133) || (b =? 160)))%nat.

Definition is_space_3 (c1 c2 c3 : ascii) : bool :=
  let a := nat_of_ascii c1 in
  let b := nat_of_ascii c2 in
  let c := nat_of_ascii c3 in
  (((a =? 225) && (b =? 154) && (c =? 128))
   || ((a =? 226) && (b =? 128)
       && (((128 <=? c) && (c <=? 138)) || (c =? 168) || (c =? 169) || (c =? 175)))
   || ((a =? 226) && (b =? 129) && (c =? 159))
   || ((a =? 227) && (b =? 128) && (c =? 128)))%nat.

Fixpoint lstrip (s : string) : string :=
  match s with
  | EmptyString => EmptyString
  | String c1 s1 =>
      if is_ascii_space c1 then lstrip s1
      else
        match s1 with
        | EmptyString => s
        | String c2 s2 =>
            if is_space_2 c1 c2 then lstrip s2
            else
              match s2 with
              | EmptyString => s
              | String c3 s3 => if is_space_3 c1 c2 c3 then lstrip s3 else s
              end
        end
  end.

(** The text is cut where what is left is whitespace only. *)
Fixpoint rstrip (s : string) : string :=
  match s with
  | EmptyString => EmptyString
  | String c s' =>
      if String.eqb (lstrip s) "" then "" else String c (rstrip s')
  end.

Definition strip (s : string) : string := rstrip (lstrip s).

(** What leaves a function that does not catch it: [KeyboardInterrupt] or
    the [EOFError] of [input]. *)
Inductive signal : Type :=
| KeyboardInterrupt
| EndOfFile.

(** How [choose_mode] ends over a finite script: it returns a mode, with
    the keys it has not read; an exception leaves it (it has no [try]);
    or the script is used up and [input] waits. *)
Inductive choosing : Type :=
| Chosen (mode : string) (unread : list keyboard)
| Escaped (s : signal)
| Undecided.

(** The three [print]s and the prompt at the head of each round. *)
Definition menu : list effect :=
  [Print (nl ++ "Available modes:");
   Print "1. chat    - Interactive chat mode";
   Print "2. auto    - Autonomous action mode";
   Prompt (nl ++ "Choose a mode (enter number or name): ")].

Fixpoint choose_mode (keys : list keyboard) : list effect * choosing :=
  match keys with
  | [] => (menu, Undecided)
  | CtrlC :: _ => (menu, Escaped KeyboardInterrupt)
  | CtrlD :: _ => (menu, Escaped EndOfFile)
  | Typed line :: keys' =>
      let choice := strip (lower line) in
      if existsb (String.eqb choice) ["1"; "chat"] then (menu, Chosen "chat" keys')
      else if existsb (String.eqb choice) ["2"; "auto"] then
        (menu, Chosen "auto" keys')
      else
        let '(log, c) := choose_mode keys' in
        ((menu ++ [Print "Invalid choice. Please try again."]) ++ log, c)%list
  end.

(** ** run_autonomous_mode *)

(** The prompt of every autonomous round. *)
Definition thought : string :=
  "Be creative and do something interesting on the blockchain. "
  ++ "Choose an action or set of actions and execute it that highlights                      your abilities.".

(** What [time.sleep(interval)] meets: the time passes, or an interrupt
    arrives. *)
Inductive nap : Type :=
| Slept
| Interrupted.

(** What the autonomous loop does: an effect of the kind the chat loop
    has, or a sleep of so many seconds. *)
Inductive auto_effect : Type :=
| Shown (e : effect)
| Sleep (seconds : Z).

(** How a run over a finite schedule of naps ends: the schedule is used
    up and the loop is asleep, the process exits, or an exception that
    is no [KeyboardInterrupt] leaves the function. *)
Inductive auto_ending : Type :=
| Asleep
| AutoExit (code : Z)
| AutoRaised (e : exn).

(** How [main] ends: with the chat loop, with the autonomous loop, by
    returning without either, by an exception out of [choose_mode], or
    waiting at the mode prompt. *)
Inductive main_ending : Type :=
| ChatEnded (e : ending)
| AutoEnded (e : auto_ending)
| MainReturned
| MainEscaped (s : signal)
| MainUndecided.

Section Driver.

Variable Agent : Type.
Variable stream : Agent -> string -> list chunk * Agent.

(** The [while True] loop of [run_autonomous_mode], run over what each
    [time.sleep] meets.  [time.sleep] refuses a negative length with a
    [ValueError], which the [except KeyboardInterrupt] does not catch. *)
Fixpoint autonomous_loop (agent_executor : Agent) (interval : Z) (naps : list nap)
  : list auto_effect * auto_ending :=
  let '(chunks, agent_executor') := stream agent_executor thought in
  let round := map Shown (Stream thought :: flat_map print_chunk chunks) in
  if (interval <? 0)%Z then
    (round, AutoRaised (ValueError "sleep length must be non-negative"))
  else
    match naps with
    | [] => ((round ++ [Sleep interval])%list, Asleep)
    | Interrupted :: _ =>
        ((round ++ [Sleep interval; Shown (Print "Goodbye Agent!")])%list,
         AutoExit 0)
    | Slept :: naps' =>
        let '(log, e) := autonomous_loop agent_executor' interval naps' in
        ((round ++ Sleep interval :: log)%list, e)
    end.

(** [def run_autonomous_mode(agent_executor, config, interval=10)]. *)
Definition run_autonomous_mode (agent_executor : Agent) (interval : option Z)
    (naps : list nap) : list auto_effect * auto_ending :=
  let interval := match interval with Some z => z | None => 10%Z end in
  let '(log, e) := autonomous_loop agent_executor interval naps in
  (Shown (Print "Starting autonomous mode...") :: log, e).

(** ** main *)

(** [main], after [initialize_agent()] has given [agent_executor]: the
    keys go first to [choose_mode], and what it leaves unread to the chat
    loop. *)
Definition main (agent_executor : Agent) (keys : list keyboard) (naps : list nap)
  : list auto_effect * main_ending :=
  let '(log, c) := choose_mode keys in
  match c with
  | Chosen mode unread =>
      if String.eqb mode "chat" then
        let '(chat_log, e) := run_chat_mode Agent stream agent_executor unread in
        (map Shown (log ++ chat_log)%list, ChatEnded e)
      else if String.eqb mode "auto" then
        let '(auto_log, e) := run_autonomous_mode agent_executor None naps in
        ((map Shown log ++ auto_log)%list, AutoEnded e)
      else (map Shown log, MainReturned)
  | Escaped s => (map Shown log, MainEscaped s)
  | Undecided => (map Shown log, MainUndecided)
  end.

End Driver.

(** The queries an autonomous log shows streamed to the decision loop. *)
Fixpoint auto_queries (log : list auto_effect) : list string :=
  match log with
  | [] => []
  | Shown (Stream q) :: log' => q :: auto_queries log'
  | _ :: log' => auto_queries log'
  end.


(** ** deploy_multi_token *)

(** [needle in haystack], on strings. *)
Fixpoint contains (needle haystack : string) : bool :=
  if String.prefix needle haystack then true
  else
    match haystack with
    | EmptyString => false
    | String _ rest => contains needle rest
    end.

(** [deploy_multi_token(wallet, base_uri)].  The wallet is the SDK's: for
    a base URI, [wallet.deploy_multi_token(base_uri)] followed by
    [.wait()] gives the address of the contract, or raises.  The function
    is given with the URIs it has asked the wallet to deploy. *)
Definition deploy_multi_token (wallet : string -> res string) (base_uri : string)
  : res string * list string :=
  if negb (contains "{id}" base_uri) then
    (Raise (ValueError "base_uri must contain {id} placeholder"), [])
  else
    (match wallet base_uri with
     | Ok contract_address =>
         Ok ("Successfully deployed multi-token contract at address:"
             ++ contract_address)
     | Raise e => Raise e
     end, [base_uri]).

(** ** Tools with one string field *)

(** A model with one required [str] field, built from the keyword
    arguments the decision loop gave: the field must be there and hold a
    string; other keys are ignored.  The result is the dump of the model. *)
Definition validate_str_field (field : string) (tool_input : list (string * value))
  : res (list (string * string)) :=
  match dict_lookup field tool_input with
  | Some (VStr s) => Ok [(field, s)]
  | _ => Raise ValidationError
  end.

Fixpoint keyword_lookup (k : string) (kwargs : list (string * string))
  : option string :=
  match kwargs with
  | [] => None
  | (k', v) :: kwargs' => if String.eqb k k' then Some v else keyword_lookup k kwargs'
  end.

(** A call that passes a dict as keyword arguments to a function whose
    parameters have no default: a keyword that names no parameter, or a
    parameter left without value, is a [TypeError]; otherwise the
    arguments in the order of the parameters. *)
Definition bind_keywords (parameters : list string) (kwargs : list (string * string))
  : res (list string) :=
  if forallb (fun kv => existsb (String.eqb (fst kv)) parameters) kwargs then
    res_map (fun p => match keyword_lookup p kwargs with
                      | Some v => Ok v
                      | None => Raise TypeError
                      end) parameters
  else Raise TypeError.

(** A [CdpTool] whose schema has the one string field [field] and whose
    [func] has the one parameter [parameter]: the tool builds the schema
    from its input and calls [func] with the dump as keyword arguments. *)
Definition address_tool (field parameter : string) (func : string -> M string)
    (tool_input : list (string * value)) : M string :=
  (kwargs <- lift (validate_str_field field tool_input) ;;
   args <- lift (bind_keywords [parameter] kwargs) ;;
   match args with
   | [a] => func a
   | _ => lift (Raise TypeError)
   end)%py.

(** [deployMultiTokenTool]: schema [DeployMultiTokenInput] with the field
    [base_uri]; the wallet is passed first, the dump as keywords. *)
Definition deployMultiTokenTool (wallet : string -> res string)
    (tool_input : list (string * value)) : res string * list string :=
  match validate_str_field "base_uri" tool_input with
  | Raise e => (Raise e, [])
  | Ok kwargs =>
      match bind_keywords ["base_uri"] kwargs with
      | Ok [base_uri] => deploy_multi_token wallet base_uri
      | Ok _ => (Raise TypeError, [])
      | Raise e => (Raise e, [])
      end
  end.

(** ** More vocabulary *)

(** What [d.get(k)] gives on a dict. *)
Definition field_or_None (d : list (string * value)) (k : string) : value :=
  match dict_lookup k d with
  | Some v => v
  | None => VNone
  end.

(** A text made of ASCII whitespace only. *)
Fixpoint all_ascii_space (s : string) : bool :=
  match s with
  | EmptyString => true
  | String c s' => is_ascii_space c && all_ascii_space s'
  end.

(** A text made of ASCII characters that are not whitespace. *)
Fixpoint all_plain (s : string) : bool :=
  match s with
  | EmptyString => true
  | String c s' =>
      (nat_of_ascii c <? 128)%nat && negb (is_ascii_space c) && all_plain s'
  end.

(** A world with an API key whose upstream answers every request with
    status 200 and a body that is no JSON. *)
Definition garbled_world : world :=
  {| MORALIS_API_KEY := Some "key";
     Wallet_network_id := "base-mainnet";
     upstream := fun rq =>
       Responded {| status_code := 200; reason := "OK"; response_url := url rq;
                    text := "<html>"; body := Undecodable "Expecting value" |} |}.

(** A wallet that deploys every contract at the same address. *)
Definition sample_wallet (base_uri : string) : res string := Ok "0xC0FFEE".

(** A trending token with all the fields of its block. *)
Definition sample_trending_token : value :=
  VDict [("token_name", VStr "Brett"); ("token_symbol", VStr "BRETT");
         ("price_usd", VStr "0.1"); ("market_cap", VInt 1000000);
         ("security_score", VInt 90); ("token_logo", VNone)].

(** What an attribute read in Python can be, as far as the network test
    goes: a string, or the property object that reading a property on
    its class gives. *)
Inductive attribute : Type :=
| Text (s : string)
| PropertyObject.

(** [attr in l] for a list of strings: a property object is equal to no
    string. *)
Definition attribute_in (attr : attribute) (l : list string) : bool :=
  match attr with
  | Text s => existsb (String.eqb s) l
  | PropertyObject => false
  end.

(** The attribute as the text a world holds for it. *)
Definition as_text (attr : attribute) : string :=
  match attr with
  | Text s => s
  | PropertyObject => "<property object>"
  end.

(** The world the program runs in.  [Wallet] is the class imported from
    [cdp] and [network_id] is a property of its instances, so
    [Wallet.network_id], read on the class as the functions do, is the
    property object, whatever network the agent's wallet is on. *)
Definition running (key : option string) (agent_network_id : string)
    (up : request -> http_outcome) : world :=
  {| MORALIS_API_KEY := key;
     Wallet_network_id := as_text PropertyObject;
     upstream := up |}.



(** A line that [choose_mode] takes for none of its modes. *)
Definition invalid_choice (line : string) : Prop :=
  ~ In (strip (lower line)) ["1"; "chat"; "2"; "auto"].

(** The times a text is printed in a log. *)
Fixpoint printed (t : string) (log : list effect) : nat :=
  match log with
  | [] => 0
  | Print s :: log' => (if String.eqb s t then 1 else 0) + printed t log'
  | _ :: log' => printed t log'
  end.

Section Chatbot.

(** [repr] of a float and of a string are the interpreter's own (shortest
    round-trip digits; quoting and escaping by the Unicode tables), and
    are taken as given. *)
Variable float_repr : float -> string.
Variable str_repr : string -> string.

(** ** Text of a value *)

Fixpoint repr (v : value) : string :=
  match v with
  | VNone => "None"
  | VBool true => "True"
  | VBool false => "False"
  | VInt z => str_of_Z z
  | VFloat f => float_repr f
  | VStr s => str_repr s
  | VList l => "[" ++ join ", " (map repr l) ++ "]"
  | VDict d =>
      "{" ++ join ", "
               (map (fun kv => let '(k, x) := kv in str_repr k ++ ": " ++ repr x) d)
          ++ "}"
  end.

(** [str(v)], which is what an f-string field [{v}] inserts. *)
Definition str (v : value) : string :=
  match v with
  | VStr s => s
  | _ => repr v
  end.

(** ** get_token_metadata *)

(** The f-string returned for [token_data = metadata[0]]. *)
Definition token_metadata_report (token_data : value) : res string :=
  (name <- get token_data "name" ;;
   symbol <- get token_data "symbol" ;;
   decimals <- get token_data "decimals" ;;
   total_supply_formatted <- get token_data "total_supply_formatted" ;;
   address <- get token_data "address" ;;
   verified_contract <- get token_data "verified_contract" ;;
   logo <- get token_data "logo" ;;
   Ok ("Token Name: " ++ str name ++ nl
       ++ "Symbol: " ++ str symbol ++ nl
       ++ "Decimals: " ++ str decimals ++ nl
       ++ "Total Supply: " ++ str total_supply_formatted ++ nl
       ++ "Contract Address: " ++ str address ++ nl
       ++ "Verified: " ++ str verified_contract ++ nl
       ++ "Logo URL: " ++ str logo ++ nl))%res.

Definition get_token_metadata (w : world) (token_address : string) : M string :=
  if api_key_missing w then
    ret "Error: Moralis API key is missing. Please set the MORALIS_API_KEY environment variable."
  else
    let chain := if is_mainnet w then "base" else "base sepolia" in
    let url := "https://deep-index.moralis.io/api/v2.2/erc20/metadata" in
    let headers := [("accept", Some "application/json");
                    ("X-API-Key", MORALIS_API_KEY w)] in
    let params := [("chain", PStr chain); ("addresses[0]", PStr token_address)] in
    try_except_RequestException
      (response <- requests_get w url headers params ;;
       _ <- lift (raise_for_status response) ;;
       metadata <- lift (response_json response) ;;
       if truthy metadata then
         token_data <- lift (getitem metadata (IInt 0)) ;;
         lift (token_metadata_report token_data)
       else
         ret "No metadata found for the provided token address.")%py
      (fun e => ret ("Error fetching token metadata: " ++ e)).

(** ** get_wallet_tokens *)

(** The f-string of the list comprehension, for one [token]. *)
Definition wallet_token_block (token : value) : res string :=
  (name <- getitem token (IStr "name") ;;
   symbol <- getitem token (IStr "symbol") ;;
   balance_formatted <- getitem token (IStr "balance_formatted") ;;
   symbol' <- getitem token (IStr "symbol") ;;
   token_address <- getitem token (IStr "token_address") ;;
   verified_contract <- getitem token (IStr "verified_contract") ;;
   usd_price <- getitem token (IStr "usd_price") ;;
   Ok ("Token: " ++ str name ++ " (" ++ str symbol ++ ")" ++ nl
       ++ "Balance: " ++ str balance_formatted ++ " " ++ str symbol' ++ nl
       ++ "Contract Address: " ++ str token_address ++ nl
       ++ "Verified: " ++ (if truthy verified_contract then "Yes" else "No") ++ nl
       ++ "Price (USD): " ++ str (py_or usd_price (VStr "N/A")) ++ nl))%res.

Definition get_wallet_tokens (w : world) (token_address : string) : M string :=
  let address_id := token_address in
  let chain := if is_mainnet w then "base" else "base sepolia" in
  let url := "https://deep-index.moralis.io/api/v2.2/wallets/" ++ address_id
               ++ "/tokens" in
  let headers := [("accept", Some "application/json");
                  ("X-API-Key", MORALIS_API_KEY w)] in
  let params := [("chain", PStr chain)] in
  try_except_RequestException
    (response <- requests_get w url headers params ;;
     _ <- lift (raise_for_status response) ;;
     json <- lift (response_json response) ;;
     tokens <- lift (get_default json "result" (VList [])) ;;
     if truthy tokens then
       items <- lift (iterate tokens) ;;
       blocks <- lift (res_map wallet_token_block items) ;;
       let token_list := join nl blocks in
       ret ("Tokens held by " ++ address_id ++ ":" ++ nl ++ token_list)
     else
       ret ("No tokens found for wallet " ++ address_id ++ "."))%py
    (fun e => ret ("Error fetching wallet tokens: " ++ e)).

(** ** get_token_details *)

(** The f-string [token_info]. *)
Definition token_details_report (token_data : value) : res string :=
  (token_name <- get token_data "token_name" ;;
   token_symbol <- get token_data "token_symbol" ;;
   price_usd <- get token_data "price_usd" ;;
   market_cap <- get token_data "market_cap" ;;
   security_score <- get token_data "security_score" ;;
   token_age_in_days <- get token_data "token_age_in_days" ;;
   on_chain_strength_index <- get token_data "on_chain_strength_index" ;;
   holders_change <- getitem token_data (IStr "holders_change") ;;
   holders_change_1d <- get holders_change "1d" ;;
   volume_change_usd <- getitem token_data (IStr "volume_change_usd") ;;
   volume_change_usd_1d <- get volume_change_usd "1d" ;;
   price_percent_change_usd <- getitem token_data (IStr "price_percent_change_usd") ;;
   price_percent_change_usd_1M <- get price_percent_change_usd "1M" ;;
   token_logo <- get token_data "token_logo" ;;
   Ok ("Token Name: " ++ str token_name ++ nl
       ++ "Symbol: " ++ str token_symbol ++ nl
       ++ "Price (USD): " ++ str price_usd ++ nl
       ++ "Market Cap: " ++ str market_cap ++ nl
       ++ "Security Score: " ++ str security_score ++ nl
       ++ "Token Age (days): " ++ str token_age_in_days ++ nl
       ++ "On-Chain Strength Index: " ++ str on_chain_strength_index ++ nl
       ++ "1-Day Holders Change: " ++ str holders_change_1d ++ nl
       ++ "1-Day Volume Change (USD): " ++ str volume_change_usd_1d ++ nl
       ++ "1-Month Price Change (%): " ++ str price_percent_change_usd_1M ++ nl
       ++ "Logo: " ++ str token_logo ++ nl))%res.

Definition get_token_details (w : world) (token_address : string) : M string :=
  let chain := if is_mainnet w then "base" else "base sepolia" in
  let url := "https://deep-index.moralis.io/api/v2.2/discovery/token" in
  let headers := [("accept", Some "application/json");
                  ("X-API-Key", MORALIS_API_KEY w)] in
  let params := [("chain", PStr chain); ("token_address", PStr token_address)] in
  try_except_RequestException
    (response <- requests_get w url headers params ;;
     _ <- lift (raise_for_status response) ;;
     token_data <- lift (response_json response) ;;
     token_info <- lift (token_details_report token_data) ;;
     ret token_info)%py
    (fun e => ret ("Error fetching token details: " ++ e)).

(** ** get_wallet_nfts *)

Definition get_wallet_nfts (w : world) (token_address : string) : M string :=
  let wallet_address := token_address in
  let chain := if is_mainnet w then "base" else "base sepolia" in
  let url := "https://deep-index.moralis.io/api/v2.2/" ++ wallet_address ++ "/nft" in
  let headers := [("accept", Some "application/json");
                  ("X-API-Key", MORALIS_API_KEY w)] in
  let params := [("chain", PStr chain); ("format", PStr "decimal");
                 ("media_items", PStr "false")] in
  try_except_RequestException
    (response <- requests_get w url headers params ;;
     _ <- lift (raise_for_status response) ;;
     ret (text response))%py
    (fun e => ret ("Error fetching wallet NFTs: " ++ e)).

(** ** get_token_pairs *)

(** The f-string of the list comprehension, for one [pair]. *)
Definition token_pair_block (pair : value) : res string :=
  (pair_label <- getitem pair (IStr "pair_label") ;;
   usd_price <- getitem pair (IStr "usd_price") ;;
   usd_price_24hr_percent_change <- getitem pair (IStr "usd_price_24hr_percent_change") ;;
   liquidity_usd <- getitem pair (IStr "liquidity_usd") ;;
   exchange_address <- getitem pair (IStr "exchange_address") ;;
   pair_a <- getitem pair (IStr "pair") ;;
   base <- getitem pair_a (IInt 0) ;;
   base_name <- getitem base (IStr "token_name") ;;
   pair_b <- getitem pair (IStr "pair") ;;
   base' <- getitem pair_b (IInt 0) ;;
   base_symbol <- getitem base' (IStr "token_symbol") ;;
   pair_c <- getitem pair (IStr "pair") ;;
   quote <- getitem pair_c (IInt 1) ;;
   quote_name <- getitem quote (IStr "token_name") ;;
   pair_d <- getitem pair (IStr "pair") ;;
   quote' <- getitem pair_d (IInt 1) ;;
   quote_symbol <- getitem quote' (IStr "token_symbol") ;;
   Ok ("Pair: " ++ str pair_label ++ nl
       ++ "Price (USD): " ++ str usd_price ++ nl
       ++ "24hr Price Change (%): " ++ str usd_price_24hr_percent_change ++ nl
       ++ "Liquidity (USD): " ++ str liquidity_usd ++ nl
       ++ "Exchange Address: " ++ str exchange_address ++ nl
       ++ "Base Token: " ++ str base_name ++ " (" ++ str base_symbol ++ ")" ++ nl
       ++ "Quote Token: " ++ str quote_name ++ " (" ++ str quote_symbol ++ ")" ++ nl))%res.

Definition get_token_pairs (w : world) (token_address : string) : M string :=
  let chain := if is_mainnet w then "base" else "base sepolia" in
  let url := "https://deep-index.moralis.io/api/v2.2/erc20/" ++ token_address
               ++ "/pairs" in
  let headers := [("accept", Some "application/json");
                  ("X-API-Key", MORALIS_API_KEY w)] in
  let params := [("chain", PStr chain)] in
  try_except_RequestException
    (response <- requests_get w url headers params ;;
     _ <- lift (raise_for_status response) ;;
     json <- lift (response_json response) ;;
     pairs <- lift (get_default json "pairs" (VList [])) ;;
     if truthy pairs then
       items <- lift (iterate pairs) ;;
       blocks <- lift (res_map token_pair_block items) ;;
       let pairs_info := join nl blocks in
       ret ("Trading pairs for token " ++ token_address ++ ":" ++ nl ++ pairs_info)
     else
       ret ("No trading pairs found for token " ++ token_address ++ "."))%py
    (fun e => ret ("Error fetching token pairs: " ++ e)).

(** ** get_trending_tokens *)

(** The f-string of the list comprehension, for one [token]. *)
Definition trending_token_block (token : value) : res string :=
  (token_name <- getitem token (IStr "token_name") ;;
   token_symbol <- getitem token (IStr "token_symbol") ;;
   price_usd <- getitem token (IStr "price_usd") ;;
   market_cap <- getitem token (IStr "market_cap") ;;
   security_score <- getitem token (IStr "security_score") ;;
   token_logo <- getitem token (IStr "token_logo") ;;
   Ok ("Token Name: " ++ str token_name ++ " (" ++ str token_symbol ++ ")" ++ nl
       ++ "Price (USD): " ++ str price_usd ++ nl
       ++ "Market Cap: " ++ str market_cap ++ nl
       ++ "Security Score: " ++ str security_score ++ nl
       ++ "Logo: " ++ str token_logo ++ nl))%res.

(** [def get_trending_tokens(security_score=80, min_market_cap=100000)]:
    an argument the caller leaves out is [None] here and takes the
    default of the [def] line. *)
Definition get_trending_tokens (w : world)
    (security_score min_market_cap : option Z) : M string :=
  let security_score := match security_score with Some z => z | None => 80%Z end in
  let min_market_cap :=
    match min_market_cap with Some z => z | None => 100000%Z end in
  let url := "https://deep-index.moralis.io/api/v2.2/discovery/tokens/trending" in
  let headers := [("accept", Some "application/json");
                  ("X-API-Key", MORALIS_API_KEY w)] in
  let params := [("chain", PStr "base"); ("security_score", PInt security_score);
                 ("min_market_cap", PInt min_market_cap)] in
  try_except_RequestException
    (response <- requests_get w url headers params ;;
     _ <- lift (raise_for_status response) ;;
     tokens <- lift (response_json response) ;;
     items <- lift (iterate tokens) ;;
     blocks <- lift (res_map trending_token_block items) ;;
     let token_info := join nl blocks in
     ret ("Trending Tokens:" ++ nl ++ token_info))%py
    (fun e => ret ("Error fetching trending tokens: " ++ e)).

(** ** The trending-tokens tool *)

(** [class TrendingTokensInput(BaseModel)]: two integer fields,
    [security_score] with [default=80, ge=0, le=100] and [min_market_cap]
    with [default=100000, ge=0]. *)
Record TrendingTokensInput : Type := {
  security_score : Z;
  min_market_cap : Z
}.

(** Building a [TrendingTokensInput] from keyword arguments: a field left
    out takes its default; a field out of its bounds is a validation
    error. *)
Definition TrendingTokensInput_validate (score market_cap : option Z)
  : res TrendingTokensInput :=
  let ss := match score with Some z => z | None => 80%Z end in
  let mc := match market_cap with Some z => z | None => 100000%Z end in
  if negb ((0 <=? ss) && (ss <=? 100))%Z then Raise ValidationError
  else if negb (0 <=? mc)%Z then Raise ValidationError
  else Ok {| security_score := ss; min_market_cap := mc |}.

(** [trendingTokensTool = CdpTool(args_schema=TrendingTokensInput,
    func=get_trending_tokens)], when the decision loop invokes it: the
    tool builds the schema from the arguments it was given and calls
    [func] with the fields of the validated model. *)
Definition trendingTokensTool (w : world) (score market_cap : option Z)
  : M string :=
  (input <- lift (TrendingTokensInput_validate score market_cap) ;;
   get_trending_tokens w (Some (security_score input))
                         (Some (min_market_cap input)))%py.

(** ** Dispatch *)

Definition call (w : world) (q : query) : M string :=
  match q with
  | TokenMetadata a => get_token_metadata w a
  | WalletTokens a => get_wallet_tokens w a
  | TokenDetails a => get_token_details w a
  | WalletNfts a => get_wallet_nfts w a
  | TokenPairs a => get_token_pairs w a
  | TrendingTokens ss mc => get_trending_tokens w ss mc
  end.

(** The request each function builds. *)
Definition request_of (w : world) (q : query) : request :=
  let chain := if is_mainnet w then "base" else "base sepolia" in
  let h := [("accept", Some "application/json"); ("X-API-Key", MORALIS_API_KEY w)] in
  match q with
  | TokenMetadata a =>
      {| url := "https://deep-index.moralis.io/api/v2.2/erc20/metadata";
         headers := h;
         params := [("chain", PStr chain); ("addresses[0]", PStr a)] |}
  | WalletTokens a =>
      {| url := "https://deep-index.moralis.io/api/v2.2/wallets/" ++ a ++ "/tokens";
         headers := h;
         params := [("chain", PStr chain)] |}
  | TokenDetails a =>
      {| url := "https://deep-index.moralis.io/api/v2.2/discovery/token";
         headers := h;
         params := [("chain", PStr chain); ("token_address", PStr a)] |}
  | WalletNfts a =>
      {| url := "https://deep-index.moralis.io/api/v2.2/" ++ a ++ "/nft";
         headers := h;
         params := [("chain", PStr chain); ("format", PStr "decimal");
                    ("media_items", PStr "false")] |}
  | TokenPairs a =>
      {| url := "https://deep-index.moralis.io/api/v2.2/erc20/" ++ a ++ "/pairs";
         headers := h;
         params := [("chain", PStr chain)] |}
  | TrendingTokens ss mc =>
      {| url := "https://deep-index.moralis.io/api/v2.2/discovery/tokens/trending";
         headers := h;
         params := [("chain", PStr "base");
                    ("security_score",
                     PInt (match ss with Some z => z | None => 80%Z end));
                    ("min_market_cap",
                     PInt (match mc with Some z => z | None => 100000%Z end))] |}
  end.

(** ** The address tools *)

(** [tokenMetadataTool = CdpTool(args_schema=TokenMetadataInput,
    func=get_token_metadata)], and its four siblings.  Each schema has
    one required string field: [token_address], except
    [WalletTokensInput], whose field is [chain].  Each function has the
    one parameter [token_address]. *)
Definition tokenMetadataTool (w : world) : list (string * value) -> M string :=
  address_tool "token_address" "token_address" (get_token_metadata w).

Definition walletTokensTool (w : world) : list (string * value) -> M string :=
  address_tool "chain" "token_address" (get_wallet_tokens w).

Definition tokenDetailsTool (w : world) : list (string * value) -> M string :=
  address_tool "token_address" "token_address" (get_token_details w).

Definition walletNftsTool (w : world) : list (string * value) -> M string :=
  address_tool "token_address" "token_address" (get_wallet_nfts w).

Definition tokenPairsTool (w : world) : list (string * value) -> M string :=
  address_tool "token_address" "token_address" (get_token_pairs w).

(** * Properties *)

(** ** Sending and catching *)

Lemma silent_ret {A} (a : A) : silent (ret a).
Proof. intro sent; reflexivity. Qed.

Lemma silent_lift {A} (r : res A) : silent (lift r).
Proof. intro sent; reflexivity. Qed.

Lemma silent_bind {A B} (m : M A) (k : A -> M B) :
  silent m -> (forall a, silent (k a)) -> silent (bind m k).
Proof.
  intros Hm Hk sent. unfold bind.
  specialize (Hm sent). destruct (m sent) as [[a | e] sent']; simpl in Hm; subst.
  - apply Hk.
  - reflexivity.
Qed.

Lemma silent_if {A} (b : bool) (m1 m2 : M A) :
  silent m1 -> silent m2 -> silent (if b then m1 else m2).
Proof. destruct b; auto. Qed.

Create HintDb silent.
#[local] Hint Resolve silent_ret silent_lift silent_bind silent_if : silent.

(** A [try] around one [requests.get] whose continuation and handler send
    nothing adds exactly that request to the log, and its outcome is the
    continuation's, with a [RequestException] turned into the handler's
    text. *)
Lemma try_get_log {A} (w : world) u h p (k : response -> M A) (f : string -> A)
    (sent : list request) :
  (forall r, silent (k r)) ->
  let rq := {| url := u; headers := h; params := p |} in
  try_except_RequestException
    (bind (requests_get w u h p) k) (fun e => ret (f e)) sent
  = (match upstream w rq with
     | Failed msg => Ok (f msg)
     | Responded r =>
         match fst (k r (sent ++ [rq])%list) with
         | Raise (RequestException msg) => Ok (f msg)
         | o => o
         end
     end, (sent ++ [rq])%list).
Proof.
  intros Hk rq. unfold try_except_RequestException, bind, requests_get.
  fold rq. simpl. destruct (upstream w rq) as [msg | r].
  - reflexivity.
  - specialize (Hk r (sent ++ [rq])%list).
    destruct (k r (sent ++ [rq])%list) as [[a | e] sent']; simpl in *; subst.
    + reflexivity.
    + destruct e; reflexivity.
Qed.


Lemma is_mainnet_iff (w : world) :
  is_mainnet w = true <->
  Wallet_network_id w = "base" \/ Wallet_network_id w = "base-mainnet".
Proof.
  unfold is_mainnet. simpl. rewrite orb_false_r, orb_true_iff, !String.eqb_eq.
  reflexivity.
Qed.

(** Every call adds to the log the one request it builds, except
    [get_token_metadata] without an API key, which adds none. *)
Lemma log_after_call (w : world) (q : query) (sent : list request) :
  snd (call w q sent) =
  (sent ++ if is_metadata q && api_key_missing w then [] else [request_of w q])%list.
Proof.
  destruct q; cbn [call is_metadata andb];
    unfold get_token_metadata, get_wallet_tokens, get_token_details,
      get_wallet_nfts, get_token_pairs, get_trending_tokens;
    try (destruct (api_key_missing w); [symmetry; apply app_nil_r|]);
    match goal with
    | |- snd (try_except_RequestException (bind (requests_get _ _ _ _) ?k) _ _) = _ =>
        rewrite (try_get_log w _ _ _ k) by auto 30 with silent; reflexivity
    end.
Qed.

Lemma sent_requests_call (w : world) (q : query) :
  sent_requests (call w q) =
  if is_metadata q && api_key_missing w then [] else [request_of w q].
Proof. apply (log_after_call w q []). Qed.


(** ** Transport and HTTP failures *)


(** ** The chain parameter *)

(** The text that stands for an attribute in a world agrees with the
    attribute on the network test. *)
Lemma as_text_agrees (attr : attribute) :
  existsb (String.eqb (as_text attr)) ["base"; "base-mainnet"]
  = attribute_in attr ["base"; "base-mainnet"].
Proof. destruct attr; reflexivity. Qed.

(** C6, as the code has it. In the running program the five functions
    that derive the chain read [network_id] on the class [Wallet], which
    gives the property object and never a network id: each of them
    sends its one request with the chain "base sepolia", whatever
    network the agent's wallet is on, "base" and "base-mainnet"
    included.  [get_trending_tokens] sends its one request with the
    chain "base". *)
Theorem chain_ignores_wallet_network (key : option string)
    (agent_network_id : string) (up : request -> http_outcome) (a : string)
    (ss mc : option Z) :
  map chain_of (sent_requests
                  (get_token_metadata (running key agent_network_id up) a))
  = (if api_key_missing (running key agent_network_id up) then []
     else [Some (PStr "base sepolia")]) /\
  map chain_of (sent_requests
                  (get_wallet_tokens (running key agent_network_id up) a))
  = [Some (PStr "base sepolia")] /\
  map chain_of (sent_requests
                  (get_token_details (running key agent_network_id up) a))
  = [Some (PStr "base sepolia")] /\
  map chain_of (sent_requests
                  (get_wallet_nfts (running key agent_network_id up) a))
  = [Some (PStr "base sepolia")] /\
  map chain_of (sent_requests
                  (get_token_pairs (running key agent_network_id up) a))
  = [Some (PStr "base sepolia")] /\
  map chain_of (sent_requests
                  (get_trending_tokens (running key agent_network_id up) ss mc))
  = [Some (PStr "base")].
Proof.
  pose proof (sent_requests_call (running key agent_network_id up)) as Hsent.
  repeat split.
  - specialize (Hsent (TokenMetadata a)). cbn [call is_metadata andb] in Hsent.
    rewrite Hsent.
    destruct (api_key_missing (running key agent_network_id up)); reflexivity.
  - specialize (Hsent (WalletTokens a)). cbn [call is_metadata andb] in Hsent.
    rewrite Hsent. reflexivity.
  - specialize (Hsent (TokenDetails a)). cbn [call is_metadata andb] in Hsent.
    rewrite Hsent. reflexivity.
  - specialize (Hsent (WalletNfts a)). cbn [call is_metadata andb] in Hsent.
    rewrite Hsent. reflexivity.
  - specialize (Hsent (TokenPairs a)). cbn [call is_metadata andb] in Hsent.
    rewrite Hsent. reflexivity.
  - specialize (Hsent (TrendingTokens ss mc)). cbn [call is_metadata andb] in Hsent.
    rewrite Hsent. reflexivity.
Qed.

(** ** Defaults and bounds of the trending-tokens tool *)

(** C5. Called with neither argument, [get_trending_tokens] sends
    security_score 80 and min_market_cap 100000, and so does the tool when
    the decision loop supplies neither; the tool invoked with
    security_score 150 ends in a validation error and has sent no
    request. *)
Theorem trending_defaults_and_bounds :
  (forall w,
      sent_requests (get_trending_tokens w None None) =
      [{| url := "https://deep-index.moralis.io/api/v2.2/discovery/tokens/trending";
          headers := [("accept", Some "application/json");
                      ("X-API-Key", MORALIS_API_KEY w)];
          params := [("chain", PStr "base"); ("security_score", PInt 80);
                     ("min_market_cap", PInt 100000)] |}]) /\
  (forall w,
      run (trendingTokensTool w None None) = run (get_trending_tokens w None None)) /\
  (forall w market_cap,
      run (trendingTokensTool w (Some 150%Z) market_cap) = (Raise ValidationError, [])).
Proof.
  split; [|split].
  - intros w. apply (sent_requests_call w (TrendingTokens None None)).
  - intros w. reflexivity.
  - intros w market_cap. reflexivity.
Qed.

(** ** The API key *)

(** C2, as the code has it. With the API key unset, [get_token_metadata]
    returns its configuration error and sends nothing, but each of the
    other five functions sends its request all the same, with a
    [X-API-Key] header of [None]. *)
Theorem only_metadata_checks_api_key (network_id : string)
    (up : request -> http_outcome) (a : string) (ss mc : option Z) :
  let w := {| MORALIS_API_KEY := None; Wallet_network_id := network_id;
              upstream := up |} in
  run (get_token_metadata w a)
  = (Ok "Error: Moralis API key is missing. Please set the MORALIS_API_KEY environment variable.",
     []) /\
  sent_requests (get_wallet_tokens w a) = [request_of w (WalletTokens a)] /\
  sent_requests (get_token_details w a) = [request_of w (TokenDetails a)] /\
  sent_requests (get_wallet_nfts w a) = [request_of w (WalletNfts a)] /\
  sent_requests (get_token_pairs w a) = [request_of w (TokenPairs a)] /\
  sent_requests (get_trending_tokens w ss mc) = [request_of w (TrendingTokens ss mc)] /\
  (forall q, headers (request_of w q)
             = [("accept", Some "application/json"); ("X-API-Key", None)]).
Proof.
  intros w. split; [reflexivity|].
  repeat split.
  - apply (sent_requests_call w (WalletTokens a)).
  - apply (sent_requests_call w (TokenDetails a)).
  - apply (sent_requests_call w (WalletNfts a)).
  - apply (sent_requests_call w (TokenPairs a)).
  - apply (sent_requests_call w (TrendingTokens ss mc)).
  - intros q. destruct q; reflexivity.
Qed.

(** ** Empty result sets *)

(** C3, as the code has it. On an empty list of trending tokens
    [get_trending_tokens] returns its header followed by no block at all,
    where [get_token_metadata], [get_wallet_tokens] and [get_token_pairs]
    return a message of their own for an empty result. *)
Theorem empty_trending_is_an_empty_report (key : option string)
    (network_id reason url text a : string) (ss mc : option Z) :
  outcome (get_trending_tokens
             (answering key network_id reason url text (VList [])) ss mc)
  = Ok ("Trending Tokens:" ++ nl ++ join nl []) /\
  outcome (get_wallet_tokens
             (answering key network_id reason url text
                (VDict [("result", VList [])])) a)
  = Ok ("No tokens found for wallet " ++ a ++ ".") /\
  outcome (get_token_pairs
             (answering key network_id reason url text
                (VDict [("pairs", VList [])])) a)
  = Ok ("No trading pairs found for token " ++ a ++ ".") /\
  outcome (get_token_metadata
             (answering (Some "key") network_id reason url text (VList [])) a)
  = Ok "No metadata found for the provided token address.".
Proof.
  repeat split; reflexivity.
Qed.

(** ** Responses with keys missing *)

(** C1, as the code has it. A successful response whose JSON lacks a key
    the function subscripts, or holds null where the function calls
    [.get], makes the function raise: the [KeyError], [AttributeError] or
    [TypeError] is not a [RequestException] and leaves the function. *)
Theorem missing_key_leaves_query_function (key : option string)
    (network_id reason url text a : string) (ss mc : option Z) :
  outcome (get_token_details
             (answering key network_id reason url text (VDict [])) a)
  = Raise (KeyError (IStr "holders_change")) /\
  outcome (get_token_details
             (answering key network_id reason url text
                (VDict [("holders_change", VNone)])) a)
  = Raise AttributeError /\
  outcome (get_wallet_tokens
             (answering key network_id reason url text
                (VDict [("result", VList [VDict []])])) a)
  = Raise (KeyError (IStr "name")) /\
  outcome (get_token_pairs
             (answering key network_id reason url text
                (VDict [("pairs", VList [VDict []])])) a)
  = Raise (KeyError (IStr "pair_label")) /\
  outcome (get_trending_tokens
             (answering key network_id reason url text VNone) ss mc)
  = Raise TypeError.
Proof.
  repeat split; reflexivity.
Qed.

(** ** The USD price of a wallet token *)

(** C8, as the code has it. A token of the wallet whose object has no
    [usd_price] key makes [get_wallet_tokens] raise [KeyError]; it is a
    [usd_price] of null that is rendered as "N/A". *)
Theorem absent_price_key_raises (key : option string)
    (network_id reason url text a : string) :
  let token :=
    [("name", VStr "USD Coin"); ("symbol", VStr "USDC");
     ("balance_formatted", VStr "1.5");
     ("token_address", VStr "0x833589fCD6eDb6E08f4c7C32D4f71b54bdA02913");
     ("verified_contract", VBool true)] in
  outcome (get_wallet_tokens
             (answering key network_id reason url text
                (VDict [("result", VList [VDict token])])) a)
  = Raise (KeyError (IStr "usd_price")) /\
  outcome (get_wallet_tokens
             (answering key network_id reason url text
                (VDict [("result",
                         VList [VDict (token ++ [("usd_price", VNone)])%list])])) a)
  = Ok ("Tokens held by " ++ a ++ ":" ++ nl
        ++ "Token: USD Coin (USDC)" ++ nl
        ++ "Balance: 1.5 USDC" ++ nl
        ++ "Contract Address: 0x833589fCD6eDb6E08f4c7C32D4f71b54bdA02913" ++ nl
        ++ "Verified: Yes" ++ nl
        ++ "Price (USD): N/A" ++ nl).
Proof.
  split; reflexivity.
Qed.

(** The outcome of a call whose exchange succeeded is that of the rest of
    the [try] body, with a [RequestException] turned into the handler's
    text. *)
Lemma outcome_try_get_success {A} (w : world) u h p (k : response -> M A)
    (f : string -> A) (r : response) :
  let rq := {| url := u; headers := h; params := p |} in
  upstream w rq = Responded r ->
  raise_for_status r = Ok tt ->
  outcome (try_except_RequestException
             (response <- requests_get w u h p ;;
              _ <- lift (raise_for_status response) ;;
              k response)%py
             (fun e => ret (f e)))
  = match fst (k r [rq]) with
    | Raise (RequestException msg) => Ok (f msg)
    | o => o
    end.
Proof.
  intros rq Hup Hst.
  unfold outcome, run, try_except_RequestException, bind, requests_get, lift.
  fold rq. simpl. rewrite Hup, Hst.
  destruct (k r [rq]) as [[x | e] sent']; simpl; [reflexivity|].
  destruct e; reflexivity.
Qed.

Lemma raise_for_status_success (r : response) :
  (200 <= status_code r < 300)%Z -> raise_for_status r = Ok tt.
Proof.
  intros H. unfold raise_for_status.
  destruct ((400 <=? status_code r) && (status_code r <? 500))%Z eqn:E1.
  { apply andb_true_iff in E1. lia. }
  destruct ((500 <=? status_code r) && (status_code r <? 600))%Z eqn:E2.
  { apply andb_true_iff in E2. lia. }
  reflexivity.
Qed.

(** ** The trading-pairs example *)

(** C7. Against an upstream that answers with a successful response
    holding exactly one pair, whose label is "WETH/USDC", USD price
    "3000.5" and 24-hour change "-1.2" (and which has the liquidity,
    exchange address and two tokens the report also prints),
    [get_token_pairs("0xABC...")] returns the line "Trading pairs for token
    0xABC...:" followed by one block whose first lines are "Pair:
    WETH/USDC", "Price (USD): 3000.5" and "24hr Price Change (%): -1.2". *)
Theorem token_pairs_example (w : world) (r : response)
    (json pair liquidity exchange tokens base quote : value)
    (base_name base_symbol quote_name quote_symbol : value) :
  (forall rq, upstream w rq = Responded r) ->
  (200 <= status_code r < 300)%Z ->
  body r = Decoded json ->
  get_default json "pairs" (VList []) = Ok (VList [pair]) ->
  getitem pair (IStr "pair_label") = Ok (VStr "WETH/USDC") ->
  getitem pair (IStr "usd_price") = Ok (VStr "3000.5") ->
  getitem pair (IStr "usd_price_24hr_percent_change") = Ok (VStr "-1.2") ->
  getitem pair (IStr "liquidity_usd") = Ok liquidity ->
  getitem pair (IStr "exchange_address") = Ok exchange ->
  getitem pair (IStr "pair") = Ok tokens ->
  getitem tokens (IInt 0) = Ok base ->
  getitem tokens (IInt 1) = Ok quote ->
  getitem base (IStr "token_name") = Ok base_name ->
  getitem base (IStr "token_symbol") = Ok base_symbol ->
  getitem quote (IStr "token_name") = Ok quote_name ->
  getitem quote (IStr "token_symbol") = Ok quote_symbol ->
  outcome (get_token_pairs w "0xABC...")
  = Ok ("Trading pairs for token 0xABC...:" ++ nl
        ++ "Pair: WETH/USDC" ++ nl
        ++ "Price (USD): 3000.5" ++ nl
        ++ "24hr Price Change (%): -1.2" ++ nl
        ++ "Liquidity (USD): " ++ str liquidity ++ nl
        ++ "Exchange Address: " ++ str exchange ++ nl
        ++ "Base Token: " ++ str base_name ++ " (" ++ str base_symbol ++ ")" ++ nl
        ++ "Quote Token: " ++ str quote_name ++ " (" ++ str quote_symbol ++ ")" ++ nl).
Proof.
  intros Hup Hst Hbody Hpairs Hlabel Hprice Hchange Hliq Hex Htokens Hb Hq
    Hbn Hbs Hqn Hqs.
  unfold get_token_pairs.
  rewrite (outcome_try_get_success w _ _ _ _ _ r (Hup _)
             (raise_for_status_success r Hst)).
  assert (token_pair_block pair
          = Ok ("Pair: WETH/USDC" ++ nl
                ++ "Price (USD): 3000.5" ++ nl
                ++ "24hr Price Change (%): -1.2" ++ nl
                ++ "Liquidity (USD): " ++ str liquidity ++ nl
                ++ "Exchange Address: " ++ str exchange ++ nl
                ++ "Base Token: " ++ str base_name ++ " (" ++ str base_symbol ++ ")"
                ++ nl
                ++ "Quote Token: " ++ str quote_name ++ " (" ++ str quote_symbol ++ ")"
                ++ nl)) as Hblock.
  { unfold token_pair_block.
    rewrite Hlabel, Hprice, Hchange, Hliq, Hex, Htokens.
    cbn [res_bind]. rewrite Hb, Hq. cbn [res_bind]. rewrite Hbn, Hbs, Hqn, Hqs.
    reflexivity. }
  unfold bind, lift, response_json. rewrite Hbody, Hpairs.
  cbn [truthy iterate res_map res_bind fst]. rewrite Hblock.
  reflexivity.
Qed.

Lemma res_map_app {A B} (f : A -> res B) (l1 l2 : list A) :
  res_map f (l1 ++ l2)%list
  = (b1 <- res_map f l1 ;; b2 <- res_map f l2 ;; Ok (b1 ++ b2)%list)%res.
Proof.
  induction l1 as [|x l1 IH]; simpl.
  - destruct (res_map f l2); reflexivity.
  - destruct (f x); simpl; [|reflexivity].
    rewrite IH. destruct (res_map f l1); simpl; [|reflexivity].
    destruct (res_map f l2); reflexivity.
Qed.

(** ** A price of zero *)

(** C10. In a report of [get_wallet_tokens], the block of a token whose
    [usd_price] is any falsy value (null, 0, 0.0, the empty string, ...)
    has the line "Price (USD): N/A": the report does not depend on which
    falsy value it was, so a price of exactly zero reads the same as a
    null price. *)
Theorem falsy_price_renders_NA (w : world) (r : response) (a : string)
    (json token name symbol balance address verified price : value)
    (before after : list value) (blocks_before blocks_after : list string) :
  (forall rq, upstream w rq = Responded r) ->
  (200 <= status_code r < 300)%Z ->
  body r = Decoded json ->
  get_default json "result" (VList []) = Ok (VList (before ++ token :: after)%list) ->
  res_map wallet_token_block before = Ok blocks_before ->
  res_map wallet_token_block after = Ok blocks_after ->
  getitem token (IStr "name") = Ok name ->
  getitem token (IStr "symbol") = Ok symbol ->
  getitem token (IStr "balance_formatted") = Ok balance ->
  getitem token (IStr "token_address") = Ok address ->
  getitem token (IStr "verified_contract") = Ok verified ->
  getitem token (IStr "usd_price") = Ok price ->
  truthy price = false ->
  outcome (get_wallet_tokens w a)
  = Ok ("Tokens held by " ++ a ++ ":" ++ nl
        ++ join nl
             (blocks_before
              ++ ("Token: " ++ str name ++ " (" ++ str symbol ++ ")" ++ nl
                  ++ "Balance: " ++ str balance ++ " " ++ str symbol ++ nl
                  ++ "Contract Address: " ++ str address ++ nl
                  ++ "Verified: " ++ (if truthy verified then "Yes" else "No") ++ nl
                  ++ "Price (USD): N/A" ++ nl)%string
              :: blocks_after)%list).
Proof.
  intros Hup Hst Hbody Hresult Hbefore Hafter Hname Hsymbol Hbalance Haddress
    Hverified Hprice Hfalsy.
  unfold get_wallet_tokens.
  rewrite (outcome_try_get_success w _ _ _ _ _ r (Hup _)
             (raise_for_status_success r Hst)).
  unfold bind, lift, response_json. rewrite Hbody, Hresult.
  assert (truthy (VList (before ++ token :: after)%list) = true) as ->
      by (destruct before; reflexivity).
  cbn [iterate]. rewrite res_map_app, Hbefore. cbn [res_map res_bind].
  unfold wallet_token_block at 1.
  rewrite Hname, Hsymbol, Hbalance, Haddress, Hverified, Hprice.
  cbn [res_bind]. rewrite Hafter. cbn [res_bind fst].
  unfold py_or. rewrite Hfalsy. reflexivity.
Qed.

(** ** One request, no retry *)

Lemma raise_for_status_passes (r : response) :
  (status_code r < 400 \/ 600 <= status_code r)%Z -> raise_for_status r = Ok tt.
Proof.
  intros H. unfold raise_for_status.
  destruct ((400 <=? status_code r) && (status_code r <? 500))%Z eqn:E1.
  { apply andb_true_iff in E1. lia. }
  destruct ((500 <=? status_code r) && (status_code r <? 600))%Z eqn:E2.
  { apply andb_true_iff in E2. lia. }
  reflexivity.
Qed.

(** X1. Whatever the upstream does (it fails, it answers with an error
    status, the body is malformed), a call of a query function leaves the
    earlier log as it was and adds at most one request to it: nothing is
    retried. *)
Theorem one_request_per_call (w : world) (q : query) (sent : list request) :
  snd (call w q sent) = (sent ++ sent_requests (call w q))%list /\
  length (sent_requests (call w q)) <= 1.
Proof.
  rewrite log_after_call, sent_requests_call.
  split; [reflexivity|].
  destruct (is_metadata q && api_key_missing w); simpl; lia.
Qed.

(** X2. [get_token_metadata] takes an API key that is set to the empty
    string for a missing one: it returns the configuration error and
    sends nothing.  With any other key it sends its request, with that
    key in the header. *)
Theorem empty_api_key_counts_as_missing (w : world) (a k : string) :
  MORALIS_API_KEY w = Some k ->
  (k = "" ->
   run (get_token_metadata w a)
   = (Ok "Error: Moralis API key is missing. Please set the MORALIS_API_KEY environment variable.",
      [])) /\
  (k <> "" ->
   exists rq, sent_requests (get_token_metadata w a) = [rq] /\
              headers rq = [("accept", Some "application/json");
                            ("X-API-Key", Some k)]).
Proof.
  intros Hk. split.
  - intros ->. unfold get_token_metadata, api_key_missing. rewrite Hk. reflexivity.
  - intros Hne.
    exists (request_of w (TokenMetadata a)). split.
    + pose proof (sent_requests_call w (TokenMetadata a)) as Hsent.
      cbn [call is_metadata andb] in Hsent. rewrite Hsent.
      unfold api_key_missing. rewrite Hk.
      apply String.eqb_neq in Hne. rewrite Hne. reflexivity.
    + simpl. rewrite Hk. reflexivity.
Qed.

(** ** Bodies that are not JSON *)

(** X3. When the exchange succeeds but the body is not JSON, each of the
    five functions that decode it returns "Error fetching <subject>:
    <message of the decoding error>": the decoding error of the requests
    library is a [RequestException], which the handler catches. *)
Theorem undecodable_body_becomes_error_text (w : world) (q : query)
    (rq : request) (r : response) (msg : string) :
  sent_requests (call w q) = [rq] ->
  upstream w rq = Responded r ->
  (status_code r < 400 \/ 600 <= status_code r)%Z ->
  body r = Undecodable msg ->
  (forall a, q <> WalletNfts a) ->
  outcome (call w q) = Ok ("Error fetching " ++ subject q ++ ": " ++ msg).
Proof.
  intros Hsent Hup Hst Hbody Hq. rewrite sent_requests_call in Hsent.
  destruct (is_metadata q && api_key_missing w) eqn:Hkey; [discriminate|].
  injection Hsent as <-.
  apply raise_for_status_passes in Hst.
  destruct q; cbn [call subject is_metadata andb] in *;
    try (exfalso; eapply Hq; reflexivity);
    unfold get_token_metadata, get_wallet_tokens, get_token_details,
      get_token_pairs, get_trending_tokens;
    try rewrite Hkey;
    rewrite (outcome_try_get_success w _ _ _ _ _ r Hup Hst);
    unfold bind, lift, response_json; rewrite Hbody; reflexivity.
Qed.

(** ** The raw NFT response *)

(** X4. [get_wallet_nfts] never decodes the body: for any response whose
    status is not 4xx or 5xx it returns the text of the body as it is,
    JSON or not. *)
Theorem wallet_nfts_returns_body_verbatim (w : world) (a : string) (r : response) :
  upstream w (request_of w (WalletNfts a)) = Responded r ->
  (status_code r < 400 \/ 600 <= status_code r)%Z ->
  outcome (get_wallet_nfts w a) = Ok (text r).
Proof.
  intros Hup Hst. apply raise_for_status_passes in Hst.
  unfold get_wallet_nfts.
  rewrite (outcome_try_get_success w _ _ _ _ _ r Hup Hst).
  reflexivity.
Qed.

(** ** Nothing to report *)

(** X5. [get_wallet_tokens] answers "No tokens found for wallet
    <address>." whenever the decoded object has no ["result"] key or
    holds a falsy value under it (an empty list, null, 0, an empty
    string, ...). *)
Theorem no_result_is_no_tokens_found (w : world) (a : string) (r : response)
    (json tokens : value) :
  upstream w (request_of w (WalletTokens a)) = Responded r ->
  (status_code r < 400 \/ 600 <= status_code r)%Z ->
  body r = Decoded json ->
  get_default json "result" (VList []) = Ok tokens ->
  truthy tokens = false ->
  outcome (get_wallet_tokens w a) = Ok ("No tokens found for wallet " ++ a ++ ".").
Proof.
  intros Hup Hst Hbody Hresult Hfalsy. apply raise_for_status_passes in Hst.
  unfold get_wallet_tokens.
  rewrite (outcome_try_get_success w _ _ _ _ _ r Hup Hst).
  unfold bind, lift, response_json. rewrite Hbody, Hresult, Hfalsy. reflexivity.
Qed.

(** X6. [get_token_pairs] answers "No trading pairs found for token
    <address>." whenever the decoded object has no ["pairs"] key or holds
    a falsy value under it. *)
Theorem no_pairs_is_no_pairs_found (w : world) (a : string) (r : response)
    (json pairs : value) :
  upstream w (request_of w (TokenPairs a)) = Responded r ->
  (status_code r < 400 \/ 600 <= status_code r)%Z ->
  body r = Decoded json ->
  get_default json "pairs" (VList []) = Ok pairs ->
  truthy pairs = false ->
  outcome (get_token_pairs w a)
  = Ok ("No trading pairs found for token " ++ a ++ ".").
Proof.
  intros Hup Hst Hbody Hpairs Hfalsy. apply raise_for_status_passes in Hst.
  unfold get_token_pairs.
  rewrite (outcome_try_get_success w _ _ _ _ _ r Hup Hst).
  unfold bind, lift, response_json. rewrite Hbody, Hpairs, Hfalsy. reflexivity.
Qed.

(** X7. With an API key, [get_token_metadata] answers "No metadata found
    for the provided token address." for every falsy body: an empty
    list, but also an empty object, null, 0, false or an empty string. *)
Theorem falsy_metadata_is_no_metadata_found (w : world) (a : string)
    (r : response) (metadata : value) :
  api_key_missing w = false ->
  upstream w (request_of w (TokenMetadata a)) = Responded r ->
  (status_code r < 400 \/ 600 <= status_code r)%Z ->
  body r = Decoded metadata ->
  truthy metadata = false ->
  outcome (get_token_metadata w a)
  = Ok "No metadata found for the provided token address.".
Proof.
  intros Hkey Hup Hst Hbody Hfalsy. apply raise_for_status_passes in Hst.
  unfold get_token_metadata. rewrite Hkey.
  rewrite (outcome_try_get_success w _ _ _ _ _ r Hup Hst).
  unfold bind, lift, response_json. rewrite Hbody, Hfalsy. reflexivity.
Qed.

(** ** Reports with fields missing *)

(** X8. With an API key, when the body is a list whose first entry is an
    object, [get_token_metadata] always returns a report, made from that
    first entry alone: the entries after it are not read, and a field the
    object lacks is printed as "None". *)
Theorem metadata_reports_first_entry (w : world) (a : string) (r : response)
    (d : list (string * value)) (others : list value) :
  api_key_missing w = false ->
  upstream w (request_of w (TokenMetadata a)) = Responded r ->
  (status_code r < 400 \/ 600 <= status_code r)%Z ->
  body r = Decoded (VList (VDict d :: others)) ->
  outcome (get_token_metadata w a)
  = Ok ("Token Name: " ++ str (field_or_None d "name") ++ nl
        ++ "Symbol: " ++ str (field_or_None d "symbol") ++ nl
        ++ "Decimals: " ++ str (field_or_None d "decimals") ++ nl
        ++ "Total Supply: " ++ str (field_or_None d "total_supply_formatted") ++ nl
        ++ "Contract Address: " ++ str (field_or_None d "address") ++ nl
        ++ "Verified: " ++ str (field_or_None d "verified_contract") ++ nl
        ++ "Logo URL: " ++ str (field_or_None d "logo") ++ nl).
Proof.
  intros Hkey Hup Hst Hbody. apply raise_for_status_passes in Hst.
  unfold get_token_metadata. rewrite Hkey.
  rewrite (outcome_try_get_success w _ _ _ _ _ r Hup Hst).
  unfold bind, lift, response_json. rewrite Hbody.
  cbn [truthy getitem seq_index]. simpl.
  unfold token_metadata_report, get, get_default, field_or_None.
  repeat match goal with
         | |- context [dict_lookup ?k d] => destruct (dict_lookup k d)
         end; reflexivity.
Qed.

(** X9. [get_token_details] returns its report whenever the three nested
    fields it subscripts ([holders_change], [volume_change_usd],
    [price_percent_change_usd]) are objects: every other field, nested or
    not, may be missing and is then printed as "None". *)
Theorem details_report_needs_three_objects (w : world) (a : string) (r : response)
    (d holders volume price : list (string * value)) :
  upstream w (request_of w (TokenDetails a)) = Responded r ->
  (status_code r < 400 \/ 600 <= status_code r)%Z ->
  body r = Decoded (VDict d) ->
  dict_lookup "holders_change" d = Some (VDict holders) ->
  dict_lookup "volume_change_usd" d = Some (VDict volume) ->
  dict_lookup "price_percent_change_usd" d = Some (VDict price) ->
  outcome (get_token_details w a)
  = Ok ("Token Name: " ++ str (field_or_None d "token_name") ++ nl
        ++ "Symbol: " ++ str (field_or_None d "token_symbol") ++ nl
        ++ "Price (USD): " ++ str (field_or_None d "price_usd") ++ nl
        ++ "Market Cap: " ++ str (field_or_None d "market_cap") ++ nl
        ++ "Security Score: " ++ str (field_or_None d "security_score") ++ nl
        ++ "Token Age (days): " ++ str (field_or_None d "token_age_in_days") ++ nl
        ++ "On-Chain Strength Index: "
        ++ str (field_or_None d "on_chain_strength_index") ++ nl
        ++ "1-Day Holders Change: " ++ str (field_or_None holders "1d") ++ nl
        ++ "1-Day Volume Change (USD): " ++ str (field_or_None volume "1d") ++ nl
        ++ "1-Month Price Change (%): " ++ str (field_or_None price "1M") ++ nl
        ++ "Logo: " ++ str (field_or_None d "token_logo") ++ nl).
Proof.
  intros Hup Hst Hbody Hh Hv Hp. apply raise_for_status_passes in Hst.
  unfold get_token_details.
  rewrite (outcome_try_get_success w _ _ _ _ _ r Hup Hst).
  unfold bind, lift, response_json. rewrite Hbody.
  unfold token_details_report, get, get_default, getitem, field_or_None.
  rewrite Hh, Hv, Hp. cbn [res_bind].
  repeat match goal with
         | |- context [dict_lookup ?k ?l] => destruct (dict_lookup k l)
         end; reflexivity.
Qed.

(** ** Reports of several blocks *)

Lemma Forall2_res_map {A B} (f : A -> res B) (l : list A) (bs : list B) :
  Forall2 (fun x b => f x = Ok b) l bs -> res_map f l = Ok bs.
Proof.
  induction 1 as [|x b l bs Hx _ IH]; simpl; [reflexivity|].
  rewrite Hx, IH. reflexivity.
Qed.

Lemma res_map_some_raise {A B} (f : A -> res B) (l : list A) (x : A) (e : exn) :
  In x l -> f x = Raise e -> exists e', res_map f l = Raise e'.
Proof.
  induction l as [|y l IH]; intros Hin Hx; [destruct Hin|].
  simpl. destruct (f y) as [b | e0] eqn:Hy; simpl.
  - destruct Hin as [-> | Hin]; [congruence|].
    destruct (IH Hin Hx) as [e' ->]. exists e'. reflexivity.
  - exists e0. reflexivity.
Qed.

Lemma res_map_raises {A B} (f : A -> res B) (l : list A) (e : exn) :
  res_map f l = Raise e -> exists x, In x l /\ f x = Raise e.
Proof.
  induction l as [|x l IH]; intros H; simpl in H; [discriminate|].
  destruct (f x) as [b | e'] eqn:Hx; simpl in H.
  - destruct (res_map f l) as [bs | e'']; simpl in H; [discriminate|].
    destruct (IH H) as (y & Hy & Hfy). exists y. split; [right; exact Hy | exact Hfy].
  - injection H as ->. exists x. split; [left; reflexivity | exact Hx].
Qed.

(** Subscripting raises [KeyError], [IndexError] or [TypeError], never a
    [RequestException]. *)
Lemma getitem_raises (v : value) (i : index) (e : exn) :
  getitem v i = Raise e -> forall msg, e <> RequestException msg.
Proof.
  intros H msg ->.
  destruct v, i; simpl in H; try discriminate.
  - unfold seq_index in H.
    destruct ((0 <=? _) && _)%Z; [|discriminate].
    destruct (nth_error _ _); discriminate.
  - unfold seq_index in H.
    destruct ((0 <=? _) && _)%Z; [|discriminate].
    destruct (nth_error _ _); discriminate.
  - destruct (dict_lookup k d); discriminate.
Qed.

Ltac block_raises H :=
  repeat match type of H with
         | res_bind (getitem ?v ?i) _ = Raise _ =>
             let E := fresh "E" in
             destruct (getitem v i) eqn:E; cbn [res_bind] in H;
             [ | injection H as <-; exact (getitem_raises _ _ _ E) ]
         end;
  try discriminate H.

Lemma wallet_token_block_raises (token : value) (e : exn) :
  wallet_token_block token = Raise e -> forall msg, e <> RequestException msg.
Proof. intros H. unfold wallet_token_block in H. block_raises H. Qed.

Lemma token_pair_block_raises (pair : value) (e : exn) :
  token_pair_block pair = Raise e -> forall msg, e <> RequestException msg.
Proof. intros H. unfold token_pair_block in H. block_raises H. Qed.

Lemma trending_token_block_raises (token : value) (e : exn) :
  trending_token_block token = Raise e -> forall msg, e <> RequestException msg.
Proof. intros H. unfold trending_token_block in H. block_raises H. Qed.

(** X10. The report of [get_wallet_tokens] is all or nothing.  When every
    token of a non-empty ["result"] list renders, it is the header
    followed by the blocks of the tokens, one for each and in the order
    of the list, joined by a newline.  When one token does not render
    (a key is missing, the entry is no object), the call raises and the
    tokens that do render are not reported. *)
Theorem wallet_report_is_all_or_nothing (w : world) (a : string) (r : response)
    (json : value) (tokens : list value) :
  upstream w (request_of w (WalletTokens a)) = Responded r ->
  (status_code r < 400 \/ 600 <= status_code r)%Z ->
  body r = Decoded json ->
  get_default json "result" (VList []) = Ok (VList tokens) ->
  tokens <> [] ->
  (forall blocks,
      Forall2 (fun token block => wallet_token_block token = Ok block) tokens blocks ->
      outcome (get_wallet_tokens w a)
      = Ok ("Tokens held by " ++ a ++ ":" ++ nl ++ join nl blocks)) /\
  (forall token e,
      In token tokens -> wallet_token_block token = Raise e ->
      exists e', outcome (get_wallet_tokens w a) = Raise e').
Proof.
  intros Hup Hst Hbody Hresult Hne. apply raise_for_status_passes in Hst.
  assert (outcome (get_wallet_tokens w a)
          = match res_map wallet_token_block tokens with
            | Ok blocks => Ok ("Tokens held by " ++ a ++ ":" ++ nl ++ join nl blocks)
            | Raise e => Raise e
            end) as Hout.
  { unfold get_wallet_tokens.
    rewrite (outcome_try_get_success w _ _ _ _ _ r Hup Hst).
    unfold bind, lift, response_json. rewrite Hbody, Hresult.
    destruct tokens as [|t tokens]; [contradiction|].
    cbn [truthy iterate].
    destruct (res_map wallet_token_block (t :: tokens)) as [blocks | e] eqn:Hblocks;
      [reflexivity|].
    destruct (res_map_raises _ _ _ Hblocks) as (token & _ & Htoken).
    pose proof (wallet_token_block_raises _ _ Htoken) as Hnot.
    cbn [fst]. destruct e; try reflexivity. exfalso. exact (Hnot msg eq_refl). }
  rewrite Hout. split.
  - intros blocks Hall. rewrite (Forall2_res_map _ _ _ Hall). reflexivity.
  - intros token e Hin Htoken.
    destruct (res_map_some_raise _ _ _ _ Hin Htoken) as [e' ->].
    exists e'. reflexivity.
Qed.

(** X11. The report of [get_token_pairs] is all or nothing in the same
    way. *)
Theorem pairs_report_is_all_or_nothing (w : world) (a : string) (r : response)
    (json : value) (pairs : list value) :
  upstream w (request_of w (TokenPairs a)) = Responded r ->
  (status_code r < 400 \/ 600 <= status_code r)%Z ->
  body r = Decoded json ->
  get_default json "pairs" (VList []) = Ok (VList pairs) ->
  pairs <> [] ->
  (forall blocks,
      Forall2 (fun pair block => token_pair_block pair = Ok block) pairs blocks ->
      outcome (get_token_pairs w a)
      = Ok ("Trading pairs for token " ++ a ++ ":" ++ nl ++ join nl blocks)) /\
  (forall pair e,
      In pair pairs -> token_pair_block pair = Raise e ->
      exists e', outcome (get_token_pairs w a) = Raise e').
Proof.
  intros Hup Hst Hbody Hpairs Hne. apply raise_for_status_passes in Hst.
  assert (outcome (get_token_pairs w a)
          = match res_map token_pair_block pairs with
            | Ok blocks =>
                Ok ("Trading pairs for token " ++ a ++ ":" ++ nl ++ join nl blocks)
            | Raise e => Raise e
            end) as Hout.
  { unfold get_token_pairs.
    rewrite (outcome_try_get_success w _ _ _ _ _ r Hup Hst).
    unfold bind, lift, response_json. rewrite Hbody, Hpairs.
    destruct pairs as [|p pairs]; [contradiction|].
    cbn [truthy iterate].
    destruct (res_map token_pair_block (p :: pairs)) as [blocks | e] eqn:Hblocks;
      [reflexivity|].
    destruct (res_map_raises _ _ _ Hblocks) as (pair & _ & Hpair).
    pose proof (token_pair_block_raises _ _ Hpair) as Hnot.
    cbn [fst]. destruct e; try reflexivity. exfalso. exact (Hnot msg eq_refl). }
  rewrite Hout. split.
  - intros blocks Hall. rewrite (Forall2_res_map _ _ _ Hall). reflexivity.
  - intros pair e Hin Hpair.
    destruct (res_map_some_raise _ _ _ _ Hin Hpair) as [e' ->].
    exists e'. reflexivity.
Qed.

(** X12. So is the report of [get_trending_tokens], whose body is the
    list itself and may be empty: the header, then one block for each
    token in order; or, when one token does not render, an exception and
    no report. *)
Theorem trending_report_is_all_or_nothing (w : world) (ss mc : option Z)
    (r : response) (tokens : list value) :
  upstream w (request_of w (TrendingTokens ss mc)) = Responded r ->
  (status_code r < 400 \/ 600 <= status_code r)%Z ->
  body r = Decoded (VList tokens) ->
  (forall blocks,
      Forall2 (fun token block => trending_token_block token = Ok block)
        tokens blocks ->
      outcome (get_trending_tokens w ss mc)
      = Ok ("Trending Tokens:" ++ nl ++ join nl blocks)) /\
  (forall token e,
      In token tokens -> trending_token_block token = Raise e ->
      exists e', outcome (get_trending_tokens w ss mc) = Raise e').
Proof.
  intros Hup Hst Hbody. apply raise_for_status_passes in Hst.
  assert (outcome (get_trending_tokens w ss mc)
          = match res_map trending_token_block tokens with
            | Ok blocks => Ok ("Trending Tokens:" ++ nl ++ join nl blocks)
            | Raise e => Raise e
            end) as Hout.
  { unfold get_trending_tokens.
    rewrite (outcome_try_get_success w _ _ _ _ _ r Hup Hst).
    unfold bind, lift, response_json. rewrite Hbody.
    cbn [iterate].
    destruct (res_map trending_token_block tokens) as [blocks | e] eqn:Hblocks;
      [reflexivity|].
    destruct (res_map_raises _ _ _ Hblocks) as (token & _ & Htoken).
    pose proof (trending_token_block_raises _ _ Htoken) as Hnot.
    cbn [fst]. destruct e; try reflexivity. exfalso. exact (Hnot msg eq_refl). }
  rewrite Hout. split.
  - intros blocks Hall. rewrite (Forall2_res_map _ _ _ Hall). reflexivity.
  - intros token e Hin Htoken.
    destruct (res_map_some_raise _ _ _ _ Hin Htoken) as [e' ->].
    exists e'. reflexivity.
Qed.

(** ** The tools *)

(** X13. Within its bounds the trending-tokens tool adds nothing to the
    function: when each value the decision loop supplies is in bounds (a
    score from 0 to 100, a market cap of 0 or more), invoking the tool is
    calling [get_trending_tokens] with the same arguments. *)
Theorem trending_tool_in_bounds_is_the_function (w : world) (ss mc : option Z) :
  (forall z, ss = Some z -> 0 <= z <= 100)%Z ->
  (forall z, mc = Some z -> 0 <= z)%Z ->
  run (trendingTokensTool w ss mc) = run (get_trending_tokens w ss mc).
Proof.
  intros Hss Hmc.
  unfold trendingTokensTool, TrendingTokensInput_validate.
  assert (0 <= match ss with Some z => z | None => 80 end <= 100)%Z as Hs
      by (destruct ss as [z|]; [apply Hss; reflexivity | lia]).
  assert (0 <= match mc with Some z => z | None => 100000 end)%Z as Hm
      by (destruct mc as [z|]; [apply Hmc; reflexivity | lia]).
  destruct Hs as [Hs1 Hs2].
  apply Z.leb_le in Hs1, Hs2, Hm. rewrite Hs1, Hs2, Hm.
  destruct ss, mc; reflexivity.
Qed.

(** X14. Out of bounds the tool stops before the function: a supplied
    score below 0 or above 100, or a supplied market cap below 0, ends in
    a validation error with no request sent.  The bounds are the
    schema's alone: the function called directly with the same values
    sends its request. *)
Theorem trending_tool_out_of_bounds_is_rejected (w : world) (ss mc : option Z) :
  (exists z, ss = Some z /\ (z < 0 \/ 100 < z)%Z) \/
  (exists z, mc = Some z /\ (z < 0)%Z) ->
  run (trendingTokensTool w ss mc) = (Raise ValidationError, []) /\
  sent_requests (get_trending_tokens w ss mc)
  = [request_of w (TrendingTokens ss mc)].
Proof.
  intros Hout. split; [|apply (sent_requests_call w (TrendingTokens ss mc))].
  unfold trendingTokensTool, TrendingTokensInput_validate.
  destruct Hout as [(z & -> & Hz) | (z & -> & Hz)].
  - assert (((0 <=? z) && (z <=? 100))%Z = false) as ->
        by (apply andb_false_iff; rewrite Z.leb_gt, Z.leb_gt; lia).
    reflexivity.
  - destruct ((0 <=? _) && (_ <=? 100))%Z; [|reflexivity].
    assert ((0 <=? z)%Z = false) as -> by (apply Z.leb_gt; lia).
    reflexivity.
Qed.

(** X15. The wallet-tokens tool never reaches the upstream: its schema
    [WalletTokensInput] has the field [chain], but [get_wallet_tokens]
    has the parameter [token_address], so a valid input ends in the
    [TypeError] of the call and an invalid one in a validation error;
    either way no request is sent. *)
Theorem wallet_tokens_tool_never_sends (w : world)
    (tool_input : list (string * value)) :
  run (walletTokensTool w tool_input)
  = (Raise (match dict_lookup "chain" tool_input with
            | Some (VStr _) => TypeError
            | _ => ValidationError
            end), []).
Proof.
  unfold walletTokensTool, address_tool, validate_str_field, run, bind, lift.
  destruct (dict_lookup "chain" tool_input) as [[]|]; reflexivity.
Qed.

(** X16. The other four address tools add nothing to their functions:
    invoked with a string under [token_address] (whatever other keys the
    input has), each is its function called with that string. *)
Theorem address_tools_are_their_functions (w : world)
    (tool_input : list (string * value)) (a : string) :
  dict_lookup "token_address" tool_input = Some (VStr a) ->
  run (tokenMetadataTool w tool_input) = run (get_token_metadata w a) /\
  run (tokenDetailsTool w tool_input) = run (get_token_details w a) /\
  run (walletNftsTool w tool_input) = run (get_wallet_nfts w a) /\
  run (tokenPairsTool w tool_input) = run (get_token_pairs w a).
Proof.
  intros Ha.
  unfold tokenMetadataTool, tokenDetailsTool, walletNftsTool, tokenPairsTool,
    address_tool, validate_str_field, run, bind, lift.
  rewrite Ha. repeat split; reflexivity.
Qed.

(** X17. Invoked without a string under [token_address] (the key is
    missing, or holds a number, null, a list, ...), each of the four
    ends in a validation error and sends nothing. *)
Theorem address_tools_reject_other_input (w : world)
    (tool_input : list (string * value)) :
  (forall a, dict_lookup "token_address" tool_input <> Some (VStr a)) ->
  run (tokenMetadataTool w tool_input) = (Raise ValidationError, []) /\
  run (tokenDetailsTool w tool_input) = (Raise ValidationError, []) /\
  run (walletNftsTool w tool_input) = (Raise ValidationError, []) /\
  run (tokenPairsTool w tool_input) = (Raise ValidationError, []).
Proof.
  intros Ha.
  unfold tokenMetadataTool, tokenDetailsTool, walletNftsTool, tokenPairsTool,
    address_tool, validate_str_field, run, bind, lift.
  destruct (dict_lookup "token_address" tool_input) as [[]|];
    try (repeat split; reflexivity).
  exfalso. eapply Ha. reflexivity.
Qed.

End Chatbot.

(** ** Leaving the chat *)

Section ChatModeProperties.

Variable Agent : Type.
Variable stream : Agent -> string -> list chunk * Agent.

Lemma queries_app (l1 l2 : list effect) :
  queries (l1 ++ l2) = (queries l1 ++ queries l2)%list.
Proof.
  induction l1 as [|e l1 IH]; [reflexivity|].
  destruct e; simpl; rewrite IH; reflexivity.
Qed.

Lemma queries_print_chunks (chunks : list chunk) :
  queries (flat_map print_chunk chunks) = [].
Proof.
  induction chunks as [|c chunks IH]; [reflexivity|].
  simpl. rewrite queries_app, IH.
  unfold print_chunk. destruct (agent c); [reflexivity|].
  destruct (tools c); reflexivity.
Qed.

(** C9. When the user types a line whose lowercase form is "exit", after
    any number of lines that are not, [run_chat_mode] returns (it does
    not exit the process, raise, or read further input), and the queries
    it has streamed to the decision loop are exactly the earlier lines:
    the exit line is not sent. *)
Theorem exit_leaves_chat_unsent (agent_executor : Agent)
    (before : list string) (line : string) (after : list keyboard) :
  lower line = "exit" ->
  Forall (fun l => lower l <> "exit") before ->
  snd (run_chat_mode Agent stream agent_executor
         (map Typed before ++ Typed line :: after)%list) = Returned /\
  queries (fst (run_chat_mode Agent stream agent_executor
                  (map Typed before ++ Typed line :: after)%list)) = before.
Proof.
  intros Hexit Hbefore.
  assert (snd (chat_loop Agent stream agent_executor
                 (map Typed before ++ Typed line :: after)%list) = Returned /\
          queries (fst (chat_loop Agent stream agent_executor
                          (map Typed before ++ Typed line :: after)%list)) = before)
    as [Hend Hlog].
  { revert agent_executor.
    induction Hbefore as [|l before Hl _ IH]; intros agent_executor; simpl.
    - rewrite Hexit. simpl. split; reflexivity.
    - apply String.eqb_neq in Hl. rewrite Hl.
      destruct (stream agent_executor l) as [chunks agent_executor'].
      specialize (IH agent_executor').
      destruct (chat_loop Agent stream agent_executor'
                  (map Typed before ++ Typed line :: after)%list) as [log e].
      simpl in *. destruct IH as [-> Hq]. split; [reflexivity|].
      rewrite queries_app, queries_print_chunks, Hq. reflexivity. }
  unfold run_chat_mode.
  destruct (chat_loop Agent stream agent_executor
              (map Typed before ++ Typed line :: after)%list) as [log e].
  simpl in *. split; assumption.
Qed.

End ChatModeProperties.

(** ** Deploying a multi-token contract *)

Lemma prefix_iff (n h : string) :
  String.prefix n h = true <-> exists post, h = n ++ post.
Proof.
  revert h. induction n as [|c n IH]; intros h.
  - destruct h; simpl; (split; [intros _; eexists; reflexivity | reflexivity]).
  - destruct h as [|c' h]; simpl.
    + split; [discriminate | intros [post H]; discriminate H].
    + destruct (Ascii.ascii_dec c c') as [<- | Hne].
      * rewrite IH. split; intros [post H]; exists post; [rewrite H | injection H as ->];
          reflexivity.
      * split; [discriminate | intros [post H]; injection H as -> _; contradiction].
Qed.

Lemma contains_unfold (n h : string) :
  contains n h
  = if String.prefix n h then true
    else match h with
         | EmptyString => false
         | String _ rest => contains n rest
         end.
Proof. destruct h; reflexivity. Qed.

(** [contains] is the substring test. *)
Lemma contains_iff (n h : string) :
  contains n h = true <-> exists pre post, h = pre ++ n ++ post.
Proof.
  induction h as [|c h IH]; rewrite contains_unfold.
  - destruct (String.prefix n "") eqn:E.
    + apply prefix_iff in E. destruct E as [post E].
      split; [intros _; exists "", post; exact E | reflexivity].
    + split; [discriminate|]. intros (pre & post & H).
      destruct pre; [|discriminate H]. simpl in H.
      assert (String.prefix n "" = true) by (apply prefix_iff; exists post; exact H).
      congruence.
  - destruct (String.prefix n (String c h)) eqn:E.
    + apply prefix_iff in E. destruct E as [post E].
      split; [intros _; exists "", post; exact E | reflexivity].
    + rewrite IH. split.
      * intros (pre & post & ->). exists (String c pre), post. reflexivity.
      * intros (pre & post & H). destruct pre as [|c' pre].
        -- simpl in H.
           assert (String.prefix n (String c h) = true)
             by (apply prefix_iff; exists post; exact H).
           congruence.
        -- injection H as -> ->. exists pre, post. reflexivity.
Qed.

(** X18. A base URI in which "{id}" occurs nowhere is refused with a
    [ValueError] before the wallet is asked for anything. *)
Theorem deploy_without_placeholder_is_refused (wallet : string -> res string)
    (base_uri : string) :
  (forall pre post, base_uri <> pre ++ "{id}" ++ post) ->
  deploy_multi_token wallet base_uri
  = (Raise (ValueError "base_uri must contain {id} placeholder"), []).
Proof.
  intros Hno. unfold deploy_multi_token.
  destruct (contains "{id}" base_uri) eqn:E; [|reflexivity].
  apply contains_iff in E. destruct E as (pre & post & E).
  exfalso. exact (Hno pre post E).
Qed.

(** X19. A base URI in which "{id}" occurs anywhere is handed to the
    wallet once, unchanged.  When the wallet gives the contract's
    address, the result is "Successfully deployed multi-token contract at
    address:" followed by it; when the wallet raises, the exception
    leaves the function. *)
Theorem deploy_with_placeholder_asks_wallet (wallet : string -> res string)
    (pre post : string) :
  snd (deploy_multi_token wallet (pre ++ "{id}" ++ post))
  = [pre ++ "{id}" ++ post] /\
  (forall address, wallet (pre ++ "{id}" ++ post) = Ok address ->
     fst (deploy_multi_token wallet (pre ++ "{id}" ++ post))
     = Ok ("Successfully deployed multi-token contract at address:" ++ address)) /\
  (forall e, wallet (pre ++ "{id}" ++ post) = Raise e ->
     fst (deploy_multi_token wallet (pre ++ "{id}" ++ post)) = Raise e).
Proof.
  assert (contains "{id}" (pre ++ "{id}" ++ post) = true) as Hc
      by (apply contains_iff; exists pre, post; reflexivity).
  unfold deploy_multi_token. rewrite Hc. cbn [negb fst snd].
  split; [reflexivity|]. split.
  - intros address ->. reflexivity.
  - intros e ->. reflexivity.
Qed.

(** X20. The deployment tool adds only the schema to the function: with
    a string under [base_uri] (whatever other keys the input has) it is
    [deploy_multi_token] on that string, so a string without "{id}" still
    ends in the [ValueError]. *)
Theorem deploy_tool_is_the_function (wallet : string -> res string)
    (tool_input : list (string * value)) (base_uri : string) :
  dict_lookup "base_uri" tool_input = Some (VStr base_uri) ->
  deployMultiTokenTool wallet tool_input = deploy_multi_token wallet base_uri.
Proof.
  intros H. unfold deployMultiTokenTool, validate_str_field. rewrite H.
  reflexivity.
Qed.

(** ** Choosing the mode *)

Lemma lower_app (s t : string) : lower (s ++ t) = lower s ++ lower t.
Proof. induction s as [|c s IH]; simpl; [reflexivity | rewrite IH; reflexivity]. Qed.

Lemma lower_ascii_space (c : ascii) : is_ascii_space c = true -> lower_ascii c = c.
Proof.
  unfold is_ascii_space, lower_ascii. intros H.
  destruct ((65 <=? nat_of_ascii c) && (nat_of_ascii c <=? 90))%nat eqn:E;
    [|reflexivity].
  exfalso.
  apply andb_true_iff in E. destruct E as [E1 E2].
  apply Nat.leb_le in E1, E2.
  apply orb_true_iff in H.
  destruct H as [H | H]; apply andb_true_iff in H; destruct H as [H1 H2];
    apply Nat.leb_le in H1, H2; lia.
Qed.

Lemma lower_spaces (s : string) : all_ascii_space s = true -> lower s = s.
Proof.
  induction s as [|c s IH]; simpl; [reflexivity|].
  intros H. apply andb_true_iff in H. destruct H as [Hc Hs].
  rewrite (lower_ascii_space c Hc), (IH Hs). reflexivity.
Qed.

Lemma lstrip_spaces_app (pre s : string) :
  all_ascii_space pre = true -> lstrip (pre ++ s) = lstrip s.
Proof.
  induction pre as [|c pre IH]; [reflexivity|].
  intros H. simpl in H. apply andb_true_iff in H. destruct H as [Hc Hpre].
  change (String c pre ++ s) with (String c (pre ++ s)).
  cbn [lstrip]. rewrite Hc. apply IH. exact Hpre.
Qed.

Lemma lstrip_spaces (s : string) : all_ascii_space s = true -> lstrip s = "".
Proof.
  induction s as [|c s IH]; [reflexivity|].
  intros H. simpl in H. apply andb_true_iff in H. destruct H as [Hc Hs].
  cbn [lstrip]. rewrite Hc. apply IH. exact Hs.
Qed.

(** A character of ASCII that is no whitespace begins no whitespace. *)
Lemma lstrip_plain (c : ascii) (s : string) :
  (nat_of_ascii c <? 128)%nat = true -> is_ascii_space c = false ->
  lstrip (String c s) = String c s.
Proof.
  intros Hlt Hsp. apply Nat.ltb_lt in Hlt. cbn [lstrip]. rewrite Hsp.
  destruct s as [|c2 s2]; [reflexivity|].
  assert (is_space_2 c c2 = false) as ->.
  { unfold is_space_2.
    assert ((nat_of_ascii c =? 194)%nat = false) as -> by (apply Nat.eqb_neq; lia).
    reflexivity. }
  destruct s2 as [|c3 s3]; [reflexivity|].
  assert (is_space_3 c c2 c3 = false) as ->.
  { unfold is_space_3.
    assert ((nat_of_ascii c =? 225)%nat = false) as -> by (apply Nat.eqb_neq; lia).
    assert ((nat_of_ascii c =? 226)%nat = false) as -> by (apply Nat.eqb_neq; lia).
    assert ((nat_of_ascii c =? 227)%nat = false) as -> by (apply Nat.eqb_neq; lia).
    reflexivity. }
  reflexivity.
Qed.

Lemma rstrip_spaces (s : string) : all_ascii_space s = true -> rstrip s = "".
Proof.
  intros H. destruct s as [|c s]; [reflexivity|].
  cbn [rstrip]. rewrite (lstrip_spaces _ H). reflexivity.
Qed.

Lemma rstrip_plain_app (t post : string) :
  all_plain t = true -> all_ascii_space post = true -> rstrip (t ++ post) = t.
Proof.
  intros Ht Hpost. induction t as [|c t IH].
  - apply rstrip_spaces. exact Hpost.
  - simpl in Ht. apply andb_true_iff in Ht. destruct Ht as [Hc Ht].
    apply andb_true_iff in Hc. destruct Hc as [Hlt Hsp].
    apply negb_true_iff in Hsp.
    change (String c t ++ post) with (String c (t ++ post)).
    cbn [rstrip]. rewrite (lstrip_plain c (t ++ post) Hlt Hsp).
    rewrite (IH Ht). reflexivity.
Qed.

(** Whitespace around a plain word is stripped, and nothing else. *)
Lemma strip_padded (pre t post : string) :
  all_ascii_space pre = true -> all_plain t = true -> all_ascii_space post = true ->
  strip (pre ++ t ++ post) = t.
Proof.
  intros Hpre Ht Hpost. unfold strip. rewrite (lstrip_spaces_app pre _ Hpre).
  destruct t as [|c t].
  - simpl. rewrite (lstrip_spaces post Hpost). reflexivity.
  - pose proof Ht as Ht'. simpl in Ht'.
    apply andb_true_iff in Ht'. destruct Ht' as [Hc _].
    apply andb_true_iff in Hc. destruct Hc as [Hlt Hsp].
    apply negb_true_iff in Hsp.
    change (String c t ++ post) with (String c (t ++ post)).
    rewrite (lstrip_plain c (t ++ post) Hlt Hsp).
    apply (rstrip_plain_app (String c t) post Ht Hpost).
Qed.

Lemma invalid_choice_falls_through (line : string) :
  invalid_choice line ->
  existsb (String.eqb (strip (lower line))) ["1"; "chat"] = false /\
  existsb (String.eqb (strip (lower line))) ["2"; "auto"] = false.
Proof.
  unfold invalid_choice. intros Hno.
  split.
  - destruct (existsb _ _) eqn:E; [|reflexivity].
    exfalso. apply Hno. apply existsb_exists in E. destruct E as (x & Hin & Hx).
    apply String.eqb_eq in Hx. subst x. simpl in Hin. simpl. tauto.
  - destruct (existsb _ _) eqn:E; [|reflexivity].
    exfalso. apply Hno. apply existsb_exists in E. destruct E as (x & Hin & Hx).
    apply String.eqb_eq in Hx. subst x. simpl in Hin. simpl. tauto.
Qed.

Lemma printed_app (t : string) (l1 l2 : list effect) :
  printed t (l1 ++ l2) = printed t l1 + printed t l2.
Proof.
  induction l1 as [|e l1 IH]; [reflexivity|].
  destruct e; simpl; rewrite IH; lia.
Qed.

(** Lines that are no valid choice are skipped, at the cost of one
    "Invalid choice" each; nothing of them is streamed to the agent. *)
Lemma choose_mode_skips_invalid (junk : list string) (rest : list keyboard) :
  Forall invalid_choice junk ->
  exists log,
    choose_mode (map Typed junk ++ rest)
    = ((log ++ fst (choose_mode rest))%list, snd (choose_mode rest)) /\
    queries log = [] /\
    printed "Invalid choice. Please try again." log = length junk /\
    printed "Goodbye Agent!" log = 0.
Proof.
  induction 1 as [|line junk Hline _ IH].
  - exists []. simpl. destruct (choose_mode rest); repeat split; reflexivity.
  - destruct IH as (log & Hrun & Hq & Hp & Hg).
    destruct (invalid_choice_falls_through line Hline) as [H1 H2].
    exists ((menu ++ [Print "Invalid choice. Please try again."]) ++ log)%list.
    cbn [map app choose_mode]. rewrite H1, H2, Hrun.
    split; [rewrite <- app_assoc; reflexivity|].
    rewrite queries_app, !printed_app, Hq, Hp, Hg.
    repeat split; reflexivity.
Qed.

(** X21. [choose_mode] returns on the first line that, lowercased and
    stripped, is "1" or "chat" (the mode "chat") or "2" or "auto" (the
    mode "auto").  Every line before it is answered with one "Invalid
    choice. Please try again." and a new menu; the lines after it are
    left unread. *)
Theorem choose_mode_returns_first_valid_choice (junk : list string)
    (line mode : string) (rest : list keyboard) :
  Forall invalid_choice junk ->
  (mode = "chat" /\ In (strip (lower line)) ["1"; "chat"]) \/
  (mode = "auto" /\ In (strip (lower line)) ["2"; "auto"]) ->
  snd (choose_mode (map Typed junk ++ Typed line :: rest)) = Chosen mode rest /\
  printed "Invalid choice. Please try again."
    (fst (choose_mode (map Typed junk ++ Typed line :: rest))) = length junk.
Proof.
  intros Hjunk Hline.
  destruct (choose_mode_skips_invalid junk (Typed line :: rest) Hjunk)
    as (log & -> & _ & Hp & _).
  cbn [fst snd]. rewrite printed_app, Hp.
  assert (choose_mode (Typed line :: rest) = (menu, Chosen mode rest)) as ->.
  { cbn [choose_mode].
    destruct Hline as [[-> Hin] | [-> Hin]].
    - assert (existsb (String.eqb (strip (lower line))) ["1"; "chat"] = true) as ->.
      { apply existsb_exists. exists (strip (lower line)).
        split; [exact Hin | apply String.eqb_refl]. }
      reflexivity.
    - assert (existsb (String.eqb (strip (lower line))) ["1"; "chat"] = false) as ->.
      { destruct Hin as [<- | [<- | []]]; reflexivity. }
      assert (existsb (String.eqb (strip (lower line))) ["2"; "auto"] = true) as ->.
      { apply existsb_exists. exists (strip (lower line)).
        split; [exact Hin | apply String.eqb_refl]. }
      reflexivity. }
  split; [reflexivity | simpl; lia].
Qed.

(** X22. The choice is read without regard to case or to ASCII
    whitespace around it: a line that is a word whose lowercase is "1",
    "chat", "2" or "auto" between any runs of spaces, tabs and the like
    chooses that mode. *)
Theorem choose_mode_ignores_case_and_padding (pre word post mode : string)
    (rest : list keyboard) :
  all_ascii_space pre = true ->
  all_ascii_space post = true ->
  (mode = "chat" /\ In (lower word) ["1"; "chat"]) \/
  (mode = "auto" /\ In (lower word) ["2"; "auto"]) ->
  choose_mode (Typed (pre ++ word ++ post) :: rest) = (menu, Chosen mode rest).
Proof.
  intros Hpre Hpost Hword.
  assert (In (lower word) ["1"; "chat"; "2"; "auto"]) as Hin
      by (simpl in *; tauto).
  assert (strip (lower (pre ++ word ++ post)) = lower word) as Hstrip.
  { rewrite !lower_app, (lower_spaces pre Hpre), (lower_spaces post Hpost).
    apply strip_padded; try assumption.
    destruct Hin as [<- | [<- | [<- | [<- | []]]]]; reflexivity. }
  cbn [choose_mode]. rewrite Hstrip.
  destruct Hword as [[-> H] | [-> H]].
  - destruct H as [<- | [<- | []]]; reflexivity.
  - destruct H as [<- | [<- | []]]; reflexivity.
Qed.

(** ** The two loops and [main] *)

Lemma lower_length (s : string) : String.length (lower s) = String.length s.
Proof. induction s as [|c s IH]; simpl; [reflexivity | rewrite IH; reflexivity]. Qed.

Lemma auto_queries_app (l1 l2 : list auto_effect) :
  auto_queries (l1 ++ l2) = (auto_queries l1 ++ auto_queries l2)%list.
Proof.
  induction l1 as [|e l1 IH]; [reflexivity|].
  destruct e as [[]|]; simpl; rewrite IH; reflexivity.
Qed.


Lemma auto_queries_Shown (log : list effect) :
  auto_queries (map Shown log) = queries log.
Proof.
  induction log as [|e log IH]; [reflexivity|].
  destruct e; simpl; rewrite IH; reflexivity.
Qed.


Section DriverProperties.

Variable Agent : Type.
Variable stream : Agent -> string -> list chunk * Agent.

(** Lines that are not "exit" are streamed in order, and the loop goes
    on with what follows them. *)
Lemma chat_loop_streams_lines (agent_executor : Agent) (before : list string) :
  Forall (fun l => lower l <> "exit") before ->
  exists log agent_executor',
    queries log = before /\
    forall rest,
      chat_loop Agent stream agent_executor (map Typed before ++ rest)
      = ((log ++ fst (chat_loop Agent stream agent_executor' rest))%list,
         snd (chat_loop Agent stream agent_executor' rest)).
Proof.
  intros Hbefore. revert agent_executor.
  induction Hbefore as [|l before Hl _ IH]; intros agent_executor.
  - exists [], agent_executor. split; [reflexivity|].
    intros rest. simpl. destruct (chat_loop _ _ _ rest); reflexivity.
  - apply String.eqb_neq in Hl.
    destruct (stream agent_executor l) as [chunks a1] eqn:Hs.
    destruct (IH a1) as (log & a2 & Hq & Hrun).
    exists ((Prompt (nl ++ "User: ") :: Stream l :: flat_map print_chunk chunks)
              ++ log)%list, a2.
    split.
    + rewrite queries_app. cbn [queries]. rewrite queries_print_chunks, Hq.
      reflexivity.
    + intros rest. cbn [map app chat_loop]. rewrite Hl, Hs, Hrun.
      rewrite <- app_assoc. reflexivity.
Qed.

(** X23. An interrupt at the chat prompt ends the process with status 0
    after "Goodbye Agent!" is printed; the queries streamed are the lines
    typed before it, and nothing after it is read. *)
Theorem interrupt_ends_chat_with_goodbye (agent_executor : Agent)
    (before : list string) (after : list keyboard) :
  Forall (fun l => lower l <> "exit") before ->
  snd (run_chat_mode Agent stream agent_executor
         (map Typed before ++ CtrlC :: after)%list) = SysExit 0 /\
  queries (fst (run_chat_mode Agent stream agent_executor
                  (map Typed before ++ CtrlC :: after)%list)) = before /\
  exists log,
    fst (run_chat_mode Agent stream agent_executor
           (map Typed before ++ CtrlC :: after)%list)
    = (log ++ [Print "Goodbye Agent!"])%list.
Proof.
  intros Hbefore.
  destruct (chat_loop_streams_lines agent_executor before Hbefore)
    as (log & a' & Hq & Hrun).
  unfold run_chat_mode. rewrite Hrun. cbn [chat_loop fst snd].
  split; [reflexivity|]. split.
  - cbn [queries]. rewrite queries_app, Hq. simpl. apply app_nil_r.
  - exists (Print "Starting chat mode... Type 'exit' to end."
              :: log ++ [Prompt (nl ++ "User: ")])%list.
    simpl. rewrite <- app_assoc. reflexivity.
Qed.

(** X24. The end of the input at the chat prompt is not handled: the
    [EOFError] of [input] leaves [run_chat_mode], with no farewell.  The
    queries streamed are the lines typed before it. *)
Theorem end_of_input_escapes_chat (agent_executor : Agent)
    (before : list string) (after : list keyboard) :
  Forall (fun l => lower l <> "exit") before ->
  snd (run_chat_mode Agent stream agent_executor
         (map Typed before ++ CtrlD :: after)%list) = Uncaught EOFError /\
  queries (fst (run_chat_mode Agent stream agent_executor
                  (map Typed before ++ CtrlD :: after)%list)) = before.
Proof.
  intros Hbefore.
  destruct (chat_loop_streams_lines agent_executor before Hbefore)
    as (log & a' & Hq & Hrun).
  unfold run_chat_mode. rewrite Hrun. cbn [chat_loop fst snd].
  split; [reflexivity|].
  cbn [queries]. rewrite queries_app, Hq. simpl. apply app_nil_r.
Qed.

(** X25. The chat loop does not strip its input: a line that is not
    exactly four characters long, such as "exit" with a space after it,
    does not end the chat and is streamed to the decision loop as a
    query. *)
Theorem padded_exit_is_streamed (agent_executor : Agent) (line : string)
    (rest : list keyboard) :
  String.length line <> 4 ->
  exists more,
    queries (fst (run_chat_mode Agent stream agent_executor (Typed line :: rest)))
    = line :: more.
Proof.
  intros Hlen.
  assert (lower line <> "exit") as Hne.
  { intros H. apply Hlen. rewrite <- lower_length, H. reflexivity. }
  apply String.eqb_neq in Hne.
  unfold run_chat_mode. cbn [chat_loop]. rewrite Hne.
  destruct (stream agent_executor line) as [chunks a'].
  destruct (chat_loop Agent stream a' rest) as [log e].
  exists (queries log). cbn [fst queries].
  rewrite queries_app. cbn [queries]. rewrite queries_print_chunks. reflexivity.
Qed.





(** X27. [main] in chat mode: the lines typed before a valid choice are
    answered by the menu and never reach the decision loop; after a
    choice of "chat" the lines typed up to "exit" are streamed, in
    order, and [main] returns. *)
Theorem main_chat_session (agent_executor : Agent) (junk : list string)
    (choice : string) (lines : list string) (quit : string)
    (after : list keyboard) (naps : list nap) :
  Forall invalid_choice junk ->
  In (strip (lower choice)) ["1"; "chat"] ->
  Forall (fun l => lower l <> "exit") lines ->
  lower quit = "exit" ->
  snd (main Agent stream agent_executor
         (map Typed junk ++ Typed choice :: map Typed lines ++ Typed quit :: after)%list
         naps) = ChatEnded Returned /\
  auto_queries
    (fst (main Agent stream agent_executor
            (map Typed junk ++ Typed choice :: map Typed lines ++ Typed quit :: after)%list
            naps)) = lines.
Proof.
  intros Hjunk Hchoice Hlines Hquit.
  destruct (choose_mode_skips_invalid junk
              (Typed choice :: map Typed lines ++ Typed quit :: after)%list Hjunk)
    as (log & Hrun & Hq & _ & _).
  assert (existsb (String.eqb (strip (lower choice))) ["1"; "chat"] = true) as Hc.
  { apply existsb_exists. exists (strip (lower choice)).
    split; [exact Hchoice | apply String.eqb_refl]. }
  unfold main. rewrite Hrun. cbn [choose_mode]. rewrite Hc. cbn [fst snd].
  change (String.eqb "chat" "chat") with true. cbv iota.
  destruct (chat_loop_streams_lines agent_executor lines Hlines)
    as (chat_log & a' & Hcq & Hchat).
  unfold run_chat_mode. rewrite Hchat. cbn [chat_loop]. rewrite Hquit.
  change (String.eqb "exit" "exit") with true. cbv iota. cbn [fst snd].
  split; [reflexivity|].
  rewrite auto_queries_Shown, !queries_app, Hq. cbn [queries app].
  rewrite queries_app, Hcq. simpl. apply app_nil_r.
Qed.

(** X28. [main] in autonomous mode: after a choice of "auto" the keys
    that follow are never read and nothing typed reaches the decision
    loop; the session is that of [run_autonomous_mode] with its default
    interval. *)
Theorem main_auto_session (agent_executor : Agent) (junk : list string)
    (choice : string) (after : list keyboard) (naps : list nap) :
  Forall invalid_choice junk ->
  In (strip (lower choice)) ["2"; "auto"] ->
  snd (main Agent stream agent_executor
         (map Typed junk ++ Typed choice :: after)%list naps)
  = AutoEnded (snd (run_autonomous_mode Agent stream agent_executor None naps)) /\
  auto_queries
    (fst (main Agent stream agent_executor
            (map Typed junk ++ Typed choice :: after)%list naps))
  = auto_queries (fst (run_autonomous_mode Agent stream agent_executor None naps)).
Proof.
  intros Hjunk Hchoice.
  destruct (choose_mode_skips_invalid junk (Typed choice :: after) Hjunk)
    as (log & Hrun & Hq & _ & _).
  assert (existsb (String.eqb (strip (lower choice))) ["1"; "chat"] = false) as Hc1
      by (destruct Hchoice as [<- | [<- | []]]; reflexivity).
  assert (existsb (String.eqb (strip (lower choice))) ["2"; "auto"] = true) as Hc2.
  { apply existsb_exists. exists (strip (lower choice)).
    split; [exact Hchoice | apply String.eqb_refl]. }
  unfold main. rewrite Hrun. cbn [choose_mode]. rewrite Hc1, Hc2. cbn [fst snd].
  change (String.eqb "auto" "chat") with false.
  change (String.eqb "auto" "auto") with true. cbv iota.
  destruct (run_autonomous_mode Agent stream agent_executor None naps)
    as [auto_log e].
  cbn [fst snd]. split; [reflexivity|].
  rewrite auto_queries_app, auto_queries_Shown, queries_app, Hq. reflexivity.
Qed.

(** X29. An interrupt or the end of the input at the mode prompt is not
    handled: [choose_mode] has no [try], so the exception leaves [main];
    there is no "Goodbye Agent!" and no exit with status 0 as in the two
    loops, and nothing has been streamed. *)
Theorem interrupt_at_mode_prompt_escapes_main (agent_executor : Agent)
    (junk : list string) (after : list keyboard) (naps : list nap) :
  Forall invalid_choice junk ->
  (snd (main Agent stream agent_executor (map Typed junk ++ CtrlC :: after)%list naps)
   = MainEscaped KeyboardInterrupt /\
   snd (main Agent stream agent_executor (map Typed junk ++ CtrlD :: after)%list naps)
   = MainEscaped EndOfFile) /\
  (forall key, key = CtrlC \/ key = CtrlD ->
     fst (main Agent stream agent_executor (map Typed junk ++ key :: after)%list naps)
     = map Shown (fst (choose_mode (map Typed junk ++ key :: after)%list)) /\
     printed "Goodbye Agent!"
       (fst (choose_mode (map Typed junk ++ key :: after)%list)) = 0 /\
     queries (fst (choose_mode (map Typed junk ++ key :: after)%list)) = []).
Proof.
  intros Hjunk. split; [split|].
  - destruct (choose_mode_skips_invalid junk (CtrlC :: after) Hjunk)
      as (log & Hrun & _).
    unfold main. rewrite Hrun. reflexivity.
  - destruct (choose_mode_skips_invalid junk (CtrlD :: after) Hjunk)
      as (log & Hrun & _).
    unfold main. rewrite Hrun. reflexivity.
  - intros key Hkey.
    destruct (choose_mode_skips_invalid junk (key :: after) Hjunk)
      as (log & Hrun & Hq & _ & Hg).
    unfold main. rewrite Hrun.
    destruct Hkey as [-> | ->]; cbn [choose_mode fst snd];
      rewrite printed_app, queries_app, Hq, Hg; repeat split; reflexivity.
Qed.

End DriverProperties.

(** ** Worked instances *)



Lemma token_pairs_example_witness :
  outcome (get_token_pairs no_repr no_repr
             (answering (Some "key") "base-mainnet" "OK" "" ""
                (VDict [("pairs", VList [weth_usdc_pair])]))
             "0xABC...")
  = Ok ("Trading pairs for token 0xABC...:" ++ nl
        ++ "Pair: WETH/USDC" ++ nl
        ++ "Price (USD): 3000.5" ++ nl
        ++ "24hr Price Change (%): -1.2" ++ nl
        ++ "Liquidity (USD): 1000000" ++ nl
        ++ "Exchange Address: 0xEXCHANGE" ++ nl
        ++ "Base Token: Wrapped Ether (WETH)" ++ nl
        ++ "Quote Token: USD Coin (USDC)" ++ nl).
Proof.
  apply (token_pairs_example no_repr no_repr
           (answering (Some "key") "base-mainnet" "OK" "" ""
              (VDict [("pairs", VList [weth_usdc_pair])]))
           {| status_code := 200; reason := "OK"; response_url := ""; text := "";
              body := Decoded (VDict [("pairs", VList [weth_usdc_pair])]) |}
           (VDict [("pairs", VList [weth_usdc_pair])])
           weth_usdc_pair (VStr "1000000") (VStr "0xEXCHANGE")
           (VList [VDict [("token_name", VStr "Wrapped Ether");
                          ("token_symbol", VStr "WETH")];
                   VDict [("token_name", VStr "USD Coin");
                          ("token_symbol", VStr "USDC")]])
           (VDict [("token_name", VStr "Wrapped Ether"); ("token_symbol", VStr "WETH")])
           (VDict [("token_name", VStr "USD Coin"); ("token_symbol", VStr "USDC")])
           (VStr "Wrapped Ether") (VStr "WETH") (VStr "USD Coin") (VStr "USDC"));
    try reflexivity.
  simpl. lia.
Defined.

Lemma falsy_price_renders_NA_witness :
  truthy (VInt 0) = false /\
  outcome (get_wallet_tokens no_repr no_repr
             (answering (Some "key") "base-mainnet" "OK" "" ""
                (VDict [("result", VList [zero_price_token])]))
             "0xW")
  = Ok ("Tokens held by 0xW:" ++ nl
        ++ "Token: Dust (DUST)" ++ nl
        ++ "Balance: 12 DUST" ++ nl
        ++ "Contract Address: 0xD057" ++ nl
        ++ "Verified: No" ++ nl
        ++ "Price (USD): N/A" ++ nl).
Proof.
  split; [reflexivity|].
  apply (falsy_price_renders_NA no_repr no_repr
           (answering (Some "key") "base-mainnet" "OK" "" ""
              (VDict [("result", VList [zero_price_token])]))
           {| status_code := 200; reason := "OK"; response_url := ""; text := "";
              body := Decoded (VDict [("result", VList [zero_price_token])]) |}
           "0xW"
           (VDict [("result", VList [zero_price_token])])
           zero_price_token (VStr "Dust") (VStr "DUST") (VStr "12") (VStr "0xD057")
           (VBool false) (VInt 0) [] [] [] []);
    try reflexivity.
  simpl. lia.
Defined.

Lemma exit_leaves_chat_unsent_witness :
  lower "EXIT" = "exit" /\
  Forall (fun l => lower l <> "exit") ["What is trending?"; "exit now"] /\
  snd (run_chat_mode unit echo_stream tt
         [Typed "What is trending?"; Typed "exit now"; Typed "EXIT"; Typed "hello"])
  = Returned /\
  queries (fst (run_chat_mode unit echo_stream tt
                  [Typed "What is trending?"; Typed "exit now"; Typed "EXIT";
                   Typed "hello"]))
  = ["What is trending?"; "exit now"].
Proof.
  assert (Forall (fun l => lower l <> "exit") ["What is trending?"; "exit now"])
    as Hbefore by (repeat constructor; discriminate).
  split; [reflexivity|]. split; [exact Hbefore|].
  apply (exit_leaves_chat_unsent unit echo_stream tt
           ["What is trending?"; "exit now"] "EXIT" [Typed "hello"]).
  - reflexivity.
  - exact Hbefore.
Defined.

Lemma empty_api_key_counts_as_missing_witness :
  run (get_token_metadata no_repr no_repr
         (answering (Some "") "base" "OK" "" "" VNone) "0xT")
  = (Ok "Error: Moralis API key is missing. Please set the MORALIS_API_KEY environment variable.",
     []).
Proof.
  apply (proj1 (empty_api_key_counts_as_missing no_repr no_repr
                  (answering (Some "") "base" "OK" "" "" VNone) "0xT" ""
                  eq_refl)).
  reflexivity.
Defined.

Lemma undecodable_body_becomes_error_text_witness :
  outcome (call no_repr no_repr garbled_world (TokenDetails "0xT"))
  = Ok "Error fetching token details: Expecting value".
Proof.
  apply (undecodable_body_becomes_error_text no_repr no_repr garbled_world
           (TokenDetails "0xT") (request_of garbled_world (TokenDetails "0xT"))
           {| status_code := 200; reason := "OK";
              response_url := "https://deep-index.moralis.io/api/v2.2/discovery/token";
              text := "<html>"; body := Undecodable "Expecting value" |}
           "Expecting value").
  - reflexivity.
  - reflexivity.
  - left. simpl. lia.
  - reflexivity.
  - intros a. discriminate.
Defined.

Lemma wallet_nfts_returns_body_verbatim_witness :
  outcome (get_wallet_nfts garbled_world "0xW") = Ok "<html>".
Proof.
  apply (wallet_nfts_returns_body_verbatim garbled_world "0xW"
           {| status_code := 200; reason := "OK";
              response_url := "https://deep-index.moralis.io/api/v2.2/0xW/nft";
              text := "<html>"; body := Undecodable "Expecting value" |}).
  - reflexivity.
  - left. simpl. lia.
Defined.

Lemma no_result_is_no_tokens_found_witness :
  outcome (get_wallet_tokens no_repr no_repr
             (answering None "base" "OK" "" "" (VDict [("result", VNone)])) "0xW")
  = Ok "No tokens found for wallet 0xW.".
Proof.
  apply (no_result_is_no_tokens_found no_repr no_repr
           (answering None "base" "OK" "" "" (VDict [("result", VNone)])) "0xW"
           {| status_code := 200; reason := "OK"; response_url := ""; text := "";
              body := Decoded (VDict [("result", VNone)]) |}
           (VDict [("result", VNone)]) VNone);
    try reflexivity.
  left. simpl. lia.
Defined.

Lemma no_pairs_is_no_pairs_found_witness :
  outcome (get_token_pairs no_repr no_repr
             (answering None "base" "OK" "" "" (VDict [])) "0xT")
  = Ok "No trading pairs found for token 0xT.".
Proof.
  apply (no_pairs_is_no_pairs_found no_repr no_repr
           (answering None "base" "OK" "" "" (VDict [])) "0xT"
           {| status_code := 200; reason := "OK"; response_url := ""; text := "";
              body := Decoded (VDict []) |}
           (VDict []) (VList []));
    try reflexivity.
  left. simpl. lia.
Defined.

Lemma falsy_metadata_is_no_metadata_found_witness :
  outcome (get_token_metadata no_repr no_repr
             (answering (Some "key") "base" "OK" "" "" (VDict [])) "0xT")
  = Ok "No metadata found for the provided token address.".
Proof.
  apply (falsy_metadata_is_no_metadata_found no_repr no_repr
           (answering (Some "key") "base" "OK" "" "" (VDict [])) "0xT"
           {| status_code := 200; reason := "OK"; response_url := ""; text := "";
              body := Decoded (VDict []) |}
           (VDict []));
    try reflexivity.
  left. simpl. lia.
Defined.

Lemma metadata_reports_first_entry_witness :
  outcome (get_token_metadata no_repr no_repr
             (answering (Some "key") "base" "OK" "" ""
                (VList [VDict [("name", VStr "USD Coin"); ("decimals", VInt 6)];
                        VStr "not read"])) "0xT")
  = Ok ("Token Name: USD Coin" ++ nl
        ++ "Symbol: None" ++ nl
        ++ "Decimals: 6" ++ nl
        ++ "Total Supply: None" ++ nl
        ++ "Contract Address: None" ++ nl
        ++ "Verified: None" ++ nl
        ++ "Logo URL: None" ++ nl).
Proof.
  apply (metadata_reports_first_entry no_repr no_repr
           (answering (Some "key") "base" "OK" "" ""
              (VList [VDict [("name", VStr "USD Coin"); ("decimals", VInt 6)];
                      VStr "not read"])) "0xT"
           {| status_code := 200; reason := "OK"; response_url := ""; text := "";
              body := Decoded
                        (VList [VDict [("name", VStr "USD Coin");
                                       ("decimals", VInt 6)];
                                VStr "not read"]) |}
           [("name", VStr "USD Coin"); ("decimals", VInt 6)] [VStr "not read"]);
    try reflexivity.
  left. simpl. lia.
Defined.

Lemma details_report_needs_three_objects_witness :
  outcome (get_token_details no_repr no_repr
             (answering None "base" "OK" "" ""
                (VDict [("token_name", VStr "Brett");
                        ("holders_change", VDict [("1d", VInt 12)]);
                        ("volume_change_usd", VDict []);
                        ("price_percent_change_usd", VDict [("1M", VNone)])]))
             "0xT")
  = Ok ("Token Name: Brett" ++ nl
        ++ "Symbol: None" ++ nl
        ++ "Price (USD): None" ++ nl
        ++ "Market Cap: None" ++ nl
        ++ "Security Score: None" ++ nl
        ++ "Token Age (days): None" ++ nl
        ++ "On-Chain Strength Index: None" ++ nl
        ++ "1-Day Holders Change: 12" ++ nl
        ++ "1-Day Volume Change (USD): None" ++ nl
        ++ "1-Month Price Change (%): None" ++ nl
        ++ "Logo: None" ++ nl).
Proof.
  apply (details_report_needs_three_objects no_repr no_repr
           (answering None "base" "OK" "" ""
              (VDict [("token_name", VStr "Brett");
                      ("holders_change", VDict [("1d", VInt 12)]);
                      ("volume_change_usd", VDict []);
                      ("price_percent_change_usd", VDict [("1M", VNone)])]))
           "0xT"
           {| status_code := 200; reason := "OK"; response_url := ""; text := "";
              body := Decoded
                        (VDict [("token_name", VStr "Brett");
                                ("holders_change", VDict [("1d", VInt 12)]);
                                ("volume_change_usd", VDict []);
                                ("price_percent_change_usd",
                                 VDict [("1M", VNone)])]) |}
           [("token_name", VStr "Brett");
            ("holders_change", VDict [("1d", VInt 12)]);
            ("volume_change_usd", VDict []);
            ("price_percent_change_usd", VDict [("1M", VNone)])]
           [("1d", VInt 12)] [] [("1M", VNone)]);
    try reflexivity.
  left. simpl. lia.
Defined.

Lemma wallet_report_is_all_or_nothing_witness :
  outcome (get_wallet_tokens no_repr no_repr
             (answering None "base" "OK" "" ""
                (VDict [("result", VList [zero_price_token])])) "0xW")
  = Ok ("Tokens held by 0xW:" ++ nl
        ++ "Token: Dust (DUST)" ++ nl
        ++ "Balance: 12 DUST" ++ nl
        ++ "Contract Address: 0xD057" ++ nl
        ++ "Verified: No" ++ nl
        ++ "Price (USD): N/A" ++ nl).
Proof.
  refine (proj1 (wallet_report_is_all_or_nothing no_repr no_repr
                   (answering None "base" "OK" "" ""
                      (VDict [("result", VList [zero_price_token])])) "0xW"
                   {| status_code := 200; reason := "OK"; response_url := "";
                      text := "";
                      body := Decoded (VDict [("result",
                                               VList [zero_price_token])]) |}
                   (VDict [("result", VList [zero_price_token])])
                   [zero_price_token] _ _ _ _ _)
                ["Token: Dust (DUST)" ++ nl
                 ++ "Balance: 12 DUST" ++ nl
                 ++ "Contract Address: 0xD057" ++ nl
                 ++ "Verified: No" ++ nl
                 ++ "Price (USD): N/A" ++ nl] _).
  - reflexivity.
  - left. simpl. lia.
  - reflexivity.
  - reflexivity.
  - discriminate.
  - repeat constructor.
Defined.

Lemma pairs_report_is_all_or_nothing_witness :
  exists e,
    outcome (get_token_pairs no_repr no_repr
               (answering None "base" "OK" "" ""
                  (VDict [("pairs", VList [weth_usdc_pair; VDict []])])) "0xT")
    = Raise e.
Proof.
  refine (proj2 (pairs_report_is_all_or_nothing no_repr no_repr
                   (answering None "base" "OK" "" ""
                      (VDict [("pairs", VList [weth_usdc_pair; VDict []])])) "0xT"
                   {| status_code := 200; reason := "OK"; response_url := "";
                      text := "";
                      body := Decoded (VDict [("pairs",
                                               VList [weth_usdc_pair; VDict []])]) |}
                   (VDict [("pairs", VList [weth_usdc_pair; VDict []])])
                   [weth_usdc_pair; VDict []] _ _ _ _ _)
                (VDict []) (KeyError (IStr "pair_label")) _ _).
  - reflexivity.
  - left. simpl. lia.
  - reflexivity.
  - reflexivity.
  - discriminate.
  - right. left. reflexivity.
  - reflexivity.
Defined.

Lemma trending_report_is_all_or_nothing_witness :
  outcome (get_trending_tokens no_repr no_repr
             (answering None "base-sepolia" "OK" "" ""
                (VList [sample_trending_token])) None None)
  = Ok ("Trending Tokens:" ++ nl
        ++ "Token Name: Brett (BRETT)" ++ nl
        ++ "Price (USD): 0.1" ++ nl
        ++ "Market Cap: 1000000" ++ nl
        ++ "Security Score: 90" ++ nl
        ++ "Logo: None" ++ nl).
Proof.
  refine (proj1 (trending_report_is_all_or_nothing no_repr no_repr
                   (answering None "base-sepolia" "OK" "" ""
                      (VList [sample_trending_token])) None None
                   {| status_code := 200; reason := "OK"; response_url := "";
                      text := "";
                      body := Decoded (VList [sample_trending_token]) |}
                   [sample_trending_token] _ _ _)
                ["Token Name: Brett (BRETT)" ++ nl
                 ++ "Price (USD): 0.1" ++ nl
                 ++ "Market Cap: 1000000" ++ nl
                 ++ "Security Score: 90" ++ nl
                 ++ "Logo: None" ++ nl] _).
  - reflexivity.
  - left. simpl. lia.
  - reflexivity.
  - repeat constructor.
Defined.

Lemma trending_tool_in_bounds_is_the_function_witness :
  run (trendingTokensTool no_repr no_repr garbled_world (Some 50%Z) None)
  = run (get_trending_tokens no_repr no_repr garbled_world (Some 50%Z) None).
Proof.
  apply (trending_tool_in_bounds_is_the_function no_repr no_repr garbled_world
           (Some 50%Z) None).
  - intros z H. injection H as <-. lia.
  - intros z H. discriminate H.
Defined.

Lemma trending_tool_out_of_bounds_is_rejected_witness :
  run (trendingTokensTool no_repr no_repr garbled_world (Some 150%Z) (Some 0%Z))
  = (Raise ValidationError, []) /\
  sent_requests (get_trending_tokens no_repr no_repr garbled_world
                   (Some 150%Z) (Some 0%Z))
  = [request_of garbled_world (TrendingTokens (Some 150%Z) (Some 0%Z))].
Proof.
  apply (trending_tool_out_of_bounds_is_rejected no_repr no_repr garbled_world
           (Some 150%Z) (Some 0%Z)).
  left. exists 150%Z. split; [reflexivity | lia].
Defined.

Lemma address_tools_are_their_functions_witness :
  run (tokenPairsTool no_repr no_repr garbled_world
         [("note", VInt 1); ("token_address", VStr "0xT")])
  = run (get_token_pairs no_repr no_repr garbled_world "0xT").
Proof.
  apply (address_tools_are_their_functions no_repr no_repr garbled_world
           [("note", VInt 1); ("token_address", VStr "0xT")] "0xT").
  reflexivity.
Defined.

Lemma address_tools_reject_other_input_witness :
  run (tokenMetadataTool no_repr no_repr garbled_world [("token_address", VInt 7)])
  = (Raise ValidationError, []).
Proof.
  apply (address_tools_reject_other_input no_repr no_repr garbled_world
           [("token_address", VInt 7)]).
  intros a. discriminate.
Defined.

Lemma deploy_without_placeholder_is_refused_witness :
  deploy_multi_token sample_wallet "https://example.com/metadata.json"
  = (Raise (ValueError "base_uri must contain {id} placeholder"), []).
Proof.
  apply (deploy_without_placeholder_is_refused sample_wallet
           "https://example.com/metadata.json").
  intros pre post H.
  assert (contains "{id}" "https://example.com/metadata.json" = true) as Hc
      by (apply contains_iff; exists pre, post; exact H).
  vm_compute in Hc. discriminate Hc.
Defined.

Lemma deploy_tool_is_the_function_witness :
  deployMultiTokenTool sample_wallet
    [("base_uri", VStr "https://example.com/metadata/{id}.json")]
  = (Ok "Successfully deployed multi-token contract at address:0xC0FFEE",
     ["https://example.com/metadata/{id}.json"]).
Proof.
  apply (deploy_tool_is_the_function sample_wallet
           [("base_uri", VStr "https://example.com/metadata/{id}.json")]
           "https://example.com/metadata/{id}.json").
  reflexivity.
Defined.

Lemma choose_mode_returns_first_valid_choice_witness :
  snd (choose_mode [Typed "exit"; Typed "3"; Typed " CHAT "; Typed "hello"])
  = Chosen "chat" [Typed "hello"] /\
  printed "Invalid choice. Please try again."
    (fst (choose_mode [Typed "exit"; Typed "3"; Typed " CHAT "; Typed "hello"])) = 2.
Proof.
  apply (choose_mode_returns_first_valid_choice ["exit"; "3"] " CHAT " "chat"
           [Typed "hello"]).
  - repeat constructor; unfold invalid_choice; vm_compute;
      intros [H | [H | [H | [H | []]]]]; discriminate H.
  - left. split; [reflexivity | right; left; reflexivity].
Defined.

Lemma choose_mode_ignores_case_and_padding_witness :
  choose_mode [Typed "  Auto "; Typed "exit"] = (menu, Chosen "auto" [Typed "exit"]).
Proof.
  apply (choose_mode_ignores_case_and_padding "  " "Auto" " " "auto"
           [Typed "exit"]).
  - reflexivity.
  - reflexivity.
  - right. split; [reflexivity | right; left; reflexivity].
Defined.

Lemma interrupt_ends_chat_with_goodbye_witness :
  snd (run_chat_mode unit echo_stream tt [Typed "hello"; CtrlC; Typed "more"])
  = SysExit 0 /\
  queries (fst (run_chat_mode unit echo_stream tt
                  [Typed "hello"; CtrlC; Typed "more"])) = ["hello"].
Proof.
  assert (Forall (fun l => lower l <> "exit") ["hello"]) as Hbefore
      by (repeat constructor; discriminate).
  destruct (interrupt_ends_chat_with_goodbye unit echo_stream tt ["hello"]
              [Typed "more"] Hbefore) as (Hend & Hq & _).
  split; [exact Hend | exact Hq].
Defined.

Lemma end_of_input_escapes_chat_witness :
  snd (run_chat_mode unit echo_stream tt [Typed "hello"; CtrlD])
  = Uncaught EOFError /\
  queries (fst (run_chat_mode unit echo_stream tt [Typed "hello"; CtrlD]))
  = ["hello"].
Proof.
  apply (end_of_input_escapes_chat unit echo_stream tt ["hello"] []).
  repeat constructor. discriminate.
Defined.

Lemma padded_exit_is_streamed_witness :
  exists more,
    queries (fst (run_chat_mode unit echo_stream tt [Typed "exit "; Typed "exit"]))
    = "exit " :: more.
Proof.
  apply (padded_exit_is_streamed unit echo_stream tt "exit " [Typed "exit"]).
  discriminate.
Defined.

Lemma main_chat_session_witness :
  snd (main unit echo_stream tt
         [Typed "exit"; Typed "Chat"; Typed "What is trending?"; Typed "Exit";
          Typed "ignored"] [])
  = ChatEnded Returned /\
  auto_queries
    (fst (main unit echo_stream tt
            [Typed "exit"; Typed "Chat"; Typed "What is trending?"; Typed "Exit";
             Typed "ignored"] []))
  = ["What is trending?"].
Proof.
  apply (main_chat_session unit echo_stream tt ["exit"] "Chat"
           ["What is trending?"] "Exit" [Typed "ignored"] []).
  - repeat constructor; unfold invalid_choice; vm_compute;
      intros [H | [H | [H | [H | []]]]]; discriminate H.
  - right. left. reflexivity.
  - repeat constructor. discriminate.
  - reflexivity.
Defined.

Lemma main_auto_session_witness :
  snd (main unit echo_stream tt [Typed "2"; Typed "exit"] [Slept; Interrupted])
  = AutoEnded (AutoExit 0) /\
  auto_queries
    (fst (main unit echo_stream tt [Typed "2"; Typed "exit"] [Slept; Interrupted]))
  = [thought; thought].
Proof.
  apply (main_auto_session unit echo_stream tt [] "2" [Typed "exit"]
           [Slept; Interrupted]).
  - constructor.
  - left. reflexivity.
Defined.

Lemma interrupt_at_mode_prompt_escapes_main_witness :
  snd (main unit echo_stream tt [Typed "exit"; CtrlC] [])
  = MainEscaped KeyboardInterrupt /\
  snd (main unit echo_stream tt [Typed "exit"; CtrlD] [])
  = MainEscaped EndOfFile.
Proof.
  apply (interrupt_at_mode_prompt_escapes_main unit echo_stream tt ["exit"] [] []).
  repeat constructor; unfold invalid_choice; vm_compute;
    intros [H | [H | [H | [H | []]]]]; discriminate H.
Defined.


